(** * mp4_to_apng.py: a batch converter driving ffmpeg

    A shallow embedding of [src/mp4_to_apng.py].  The script is a sequence
    of effects (opening the log file, logger calls, sub-processes, directory
    tests, [mkdir], [glob], [sys.exit]); it is modelled in a small monad that
    threads the trace of the effects performed so far and propagates
    [sys.exit] and uncaught exceptions.  What the environment answers (the
    directory tree, the outcome of every sub-process, of [mkdir] and of the
    opening of the log file) is read from a [World].

    What the model takes from the platform:
    - paths are POSIX paths, and [__file__] is absolute, as it is for a
      script run as the main module;
    - [glob] and [stem] are those of pathlib (CPython 3.8 to 3.13);
    - a logger call does not raise (the handlers of [logging] keep their
      own errors to themselves), and time stamps are left out of the
      records;
    - a child process either terminates with a status or
      [subprocess.run] raises an instance of [Exception]; interrupts
      ([KeyboardInterrupt] and the like) are left out. *)

From Stdlib Require Import List String Ascii ZArith Bool Lia.
From Stdlib Require Import Decimal DecimalString.
From Stdlib Require DecimalNat DecimalFacts.
Import ListNotations.

Local Open Scope string_scope.

(** ** Strings *)

Module Str.

(** The line feed the f-strings of the source write as a backslash-n. *)
Definition nl : string := String (ascii_of_nat 10) EmptyString.

(** [str(n)] and [{n}] in an f-string, for a length or a counter. *)
Definition of_nat (n : nat) : string := NilZero.string_of_uint (Nat.to_uint n).

(** [{rc}] in an f-string, for a return code. *)
Definition of_Z (z : Z) : string := NilZero.string_of_int (Z.to_int z).

(** [sep.join(l)] *)
Fixpoint join (sep : string) (l : list string) : string :=
  match l with
  | [] => EmptyString
  | [x] => x
  | x :: rest => x ++ sep ++ join sep rest
  end.

(** [s.rfind(c)]: the index of the last occurrence of [c], or -1. *)
Fixpoint rfind (c : ascii) (s : string) : Z :=
  match s with
  | EmptyString => (-1)%Z
  | String a s' =>
      let r := rfind c s' in
      if (0 <=? r)%Z then (r + 1)%Z
      else if Ascii.eqb a c then 0%Z else (-1)%Z
  end.

(** [s[:i]] for [0 <= i]. *)
Definition take (i : Z) (s : string) : string := substring 0 (Z.to_nat i) s.

(** Shell-style matching of a whole name against a pattern, as pathlib
    does on POSIX for one path component: [*] stands for any run of
    characters (a leading dot included), [?] for one character, any other
    character for itself, case-sensitively.  (Bracket expressions are not
    modelled; the script's pattern has none.) *)
Fixpoint fnmatch (pat name : string) : bool :=
  match pat with
  | EmptyString => match name with EmptyString => true | _ => false end
  | String c pat' =>
      if Ascii.eqb c "*" then
        (fix star (n : string) : bool :=
           fnmatch pat' n
           || match n with
              | EmptyString => false
              | String _ n' => star n'
              end) name
      else
        match name with
        | EmptyString => false
        | String a name' =>
            (Ascii.eqb c "?" || Ascii.eqb a c) && fnmatch pat' name'
        end
  end.

End Str.

(** ** Paths

    A [pathlib.Path] that is absolute, as the list of its components below
    the root.  [__file__] of a script run as the main module is an absolute
    path (CPython 3.9 and later), so every path the script builds is. *)

Definition path := list string.

Module Path.

(** [str(p)] *)
Definition str (p : path) : string := "/" ++ Str.join "/" p.

(** [p.parent]; the root is its own parent. *)
Definition parent (p : path) : path := removelast p.

(** [p / name] for a relative name of one component. *)
Definition div (p : path) (name : string) : path := (p ++ [name])%list.

(** [p.name]: the last component, empty for the root. *)
Definition name (p : path) : string := last p EmptyString.

(** [p.stem]: the name without its suffix.  pathlib:
    [i = name.rfind('.')]; [name[:i]] when [0 < i < len(name) - 1], else
    the whole name. *)
Definition stem (p : path) : string :=
  let nm := name p in
  let i := Str.rfind "." nm in
  if ((0 <? i) && (i <? Z.of_nat (String.length nm) - 1))%Z
  then Str.take i nm else nm.

End Path.

Notation "p // n" := (Path.div p n) (at level 40, left associativity).

(** ** The environment *)

(** A directory tree.  An entry of a directory is a name and what the name
    leads to; [Special] stands for whatever is neither a regular file nor a
    directory (a socket, a FIFO, a dangling link). *)
#[local] Set Warnings "-register-all".
Inductive node : Type :=
| File
| Special
| Dir (entries : list (string * node)).
#[local] Set Warnings "register-all".

Module Fs.

Fixpoint assoc (nm : string) (es : list (string * node)) : option node :=
  match es with
  | [] => None
  | (k, v) :: es' => if String.eqb k nm then Some v else assoc nm es'
  end.

Fixpoint lookup (n : node) (p : path) : option node :=
  match p with
  | [] => Some n
  | c :: p' =>
      match n with
      | Dir es =>
          match assoc c es with
          | Some n' => lookup n' p'
          | None => None
          end
      | _ => None
      end
  end.

(** [p.is_dir()] *)
Definition is_dir (root : node) (p : path) : bool :=
  match lookup root p with
  | Some (Dir _) => true
  | _ => false
  end.

(** [list(p.glob(pat))] for a pattern of one component: the entries of the
    directory [p] whose name matches, in the order the directory lists
    them.  The kind of the entry is not looked at, and nothing below the
    entries is visited. *)
Definition glob (root : node) (p : path) (pat : string) : list path :=
  match lookup root p with
  | Some (Dir es) =>
      map (fun e => p // fst e) (filter (fun e => Str.fnmatch pat (fst e)) es)
  | _ => []
  end.

End Fs.

(** The exceptions the script can meet, by the classes its handlers tell
    apart.  [FileNotFoundError] is a subclass of [OSError]; [OSError] here is
    any other instance of it; [OtherException] is any other subclass of
    [Exception].  Each carries the text [str(e)] gives. *)
Inductive exn : Type :=
| FileNotFoundError (text : string)
| OSError (text : string)
| CalledProcessError (returncode : Z) (stderr : string) (text : string)
| OtherException (text : string).

Module Exn.

(** [str(e)], and [{e}] in an f-string *)
Definition str (e : exn) : string :=
  match e with
  | FileNotFoundError s | OSError s | OtherException s => s
  | CalledProcessError _ _ s => s
  end.

(** [isinstance(e, OSError)] *)
Definition is_OSError (e : exn) : bool :=
  match e with
  | FileNotFoundError _ | OSError _ => true
  | _ => false
  end.

End Exn.

Record CompletedProcess : Type := {
  returncode : Z;
  stdout : string;
  stderr : string
}.

(** What starting a child process leads to: it ran and terminated, or
    [subprocess.run] raised before or while running it. *)
Inductive spawn : Type :=
| Ran (r : CompletedProcess)
| Failed (e : exn).

Inductive level : Type := DEBUG | INFO | WARNING | ERROR.

(** The effects of the script, in the order it performs them. *)
Inductive event : Type :=
| OpenLog (p : path)               (* FileHandler(LOG_FILE, mode='w'): p opened for writing, truncated *)
| Log (lvl : level) (msg : string) (* a record: written to the log file, and to stdout from INFO up *)
| Run (argv : list string)         (* subprocess.run(argv, check=True, ...) *)
| IsDir (p : path)                 (* p.is_dir() *)
| Mkdir (p : path)                 (* p.mkdir(parents=True, exist_ok=True) *)
| Glob (p : path) (pat : string)   (* p.glob(pat) *)
| Exit (code : Z).                 (* sys.exit(code) *)

Definition trace := list event.

(** The argument vectors of the child processes started so far. *)
Definition runs (t : trace) : list (list string) :=
  flat_map (fun e => match e with Run argv => [argv] | _ => [] end) t.

Record World : Type := {
  cwd : path;                          (* os.getcwd() *)
  script_file : path;                  (* __file__ *)
  root : node;                         (* the directory tree when main starts *)
  log_open : option string;            (* None: the log file opens; Some s: OSError(s) *)
  tool : nat -> list string -> spawn;  (* what the n-th child process of the run (from 0) does *)
  mkdir : path -> option string;       (* None: the directory is made; Some s: OSError(s) *)
  called_text : list string -> Z -> string (* str() of a CalledProcessError *)
}.

(** ** The monad of the script *)

Inductive outcome (A : Type) : Type :=
| Ret (a : A)          (* the statement completed *)
| Exited (code : Z)    (* sys.exit: SystemExit travels up, no handler of the script takes it *)
| Raised (e : exn).    (* an exception travels up *)

Arguments Ret {A} a.
Arguments Exited {A} code.
Arguments Raised {A} e.

Definition M (A : Type) : Type := trace -> trace * outcome A.

Definition ret {A} (a : A) : M A := fun t => (t, Ret a).

Definition bind {A B} (m : M A) (k : A -> M B) : M B :=
  fun t =>
    match m t with
    | (t', Ret a) => k a t'
    | (t', Exited c) => (t', Exited c)
    | (t', Raised e) => (t', Raised e)
    end.

Notation "x <- m ;; k" := (bind m (fun x => k))
  (at level 61, m at next level, right associativity).
Notation "m ;; k" := (bind m (fun _ => k))
  (at level 61, right associativity).

Definition emit (e : event) : M unit := fun t => ((t ++ [e])%list, Ret tt).

Definition raise {A} (e : exn) : M A := fun t => (t, Raised e).

(** [try: m  except ...: h]: [h e] is the body of the first clause that
    takes [e], [None] when no clause does. *)
Definition try_except {A} (m : M A) (h : exn -> option (M A)) : M A :=
  fun t =>
    match m t with
    | (t', Raised e) =>
        match h e with
        | Some k => k t'
        | None => (t', Raised e)
        end
    | r => r
    end.

(** [for x in l: s = body x s] *)
Fixpoint for_each {A S} (l : list A) (body : A -> S -> M S) (s : S) : M S :=
  match l with
  | [] => ret s
  | x :: l' => s' <- body x s ;; for_each l' body s'
  end.

Definition when (b : bool) (m : M unit) : M unit := if b then m else ret tt.

(** [sys.exit(code)] *)
Definition sys_exit {A} (code : Z) : M A :=
  fun t => ((t ++ [Exit code])%list, Exited code).

(** The status the interpreter ends with: that of [sys.exit]; 1 after the
    traceback of an uncaught exception; 0 when the script runs off its end. *)
Definition exit_status {A} (o : outcome A) : Z :=
  match o with
  | Ret _ => 0
  | Exited c => c
  | Raised _ => 1
  end.

(** ** The script *)

Definition MP4_SOURCE_DIR : string := "mp4".
Definition APNG_EXPORT_DIR : string := "export".
Definition LOG_FILE : string := "conversion.log".
Definition FFMPEG_OPTIONS : list string :=
  ["-vf"; "fps=15,scale=320:-1:flags=lanczos"; "-plays"; "0"; "-f"; "apng"; "-y"].

Definition logger_debug (msg : string) : M unit := emit (Log DEBUG msg).
Definition logger_info (msg : string) : M unit := emit (Log INFO msg).
Definition logger_warning (msg : string) : M unit := emit (Log WARNING msg).
Definition logger_error (msg : string) : M unit := emit (Log ERROR msg).

(** The command [convert_mp4_to_apng] builds (its local [command]). *)
Definition command (mp4_filepath apng_filepath : path) : list string :=
  (["ffmpeg"; "-i"; Path.str mp4_filepath]
     ++ FFMPEG_OPTIONS
     ++ [Path.str apng_filepath])%list.

Section Script.

Variable w : World.

(** [subprocess.run(argv, check=True, ...)] *)
Definition subprocess_run (argv : list string) : M CompletedProcess :=
  fun t =>
    let t' := (t ++ [Run argv])%list in
    match tool w (List.length (runs t)) argv with
    | Ran r =>
        if (returncode r =? 0)%Z then (t', Ret r)
        else (t', Raised (CalledProcessError (returncode r) (stderr r)
                            (called_text w argv (returncode r))))
    | Failed e => (t', Raised e)
    end.

Definition is_dir (p : path) : M bool :=
  emit (IsDir p) ;; ret (Fs.is_dir (root w) p).

Definition path_mkdir (p : path) : M unit :=
  emit (Mkdir p) ;;
  match mkdir w p with
  | None => ret tt
  | Some s => raise (OSError s)
  end.

Definition glob (p : path) (pat : string) : M (list path) :=
  emit (Glob p pat) ;; ret (Fs.glob (root w) p pat).

(** Module level, lines 37 to 55: the handlers of the logger.  The file
    handler opens [LOG_FILE] at once, a relative name, so in the current
    directory. *)
Definition module_init : M unit :=
  emit (OpenLog (cwd w // LOG_FILE)) ;;
  match log_open w with
  | None => ret tt
  | Some s => raise (OSError s)
  end.

Definition check_ffmpeg : M bool :=
  logger_info "Checking for ffmpeg executable..." ;;
  try_except
    (_ <- subprocess_run ["ffmpeg"; "-version"] ;;
     logger_info "ffmpeg found." ;;
     ret true)
    (fun e =>
       match e with
       | FileNotFoundError _ => Some (
           logger_error "FATAL: ffmpeg command not found. Please ensure ffmpeg is installed and accessible in your PATH." ;;
           ret false)
       | CalledProcessError _ _ _ => Some (
           logger_error ("FATAL: Error while checking ffmpeg version: " ++ Exn.str e) ;;
           ret false)
       | _ => None
       end).

Definition convert_mp4_to_apng (mp4_filepath apng_filepath : path) : M bool :=
  logger_info ("Starting conversion for: " ++ Path.name mp4_filepath) ;;
  logger_debug ("Input path: " ++ Path.str mp4_filepath) ;;
  logger_debug ("Output path: " ++ Path.str apng_filepath) ;;
  logger_debug ("Executing command: "
                  ++ Str.join " " (command mp4_filepath apng_filepath)) ;;
  try_except
    (result <- subprocess_run (command mp4_filepath apng_filepath) ;;
     logger_info ("Successfully converted '" ++ Path.name mp4_filepath
                    ++ "' to '" ++ Path.name apng_filepath ++ "'") ;;
     logger_debug ("ffmpeg stdout:" ++ Str.nl ++ stdout result) ;;
     logger_debug ("ffmpeg stderr:" ++ Str.nl ++ stderr result) ;;
     ret true)
    (fun e =>
       match e with
       | FileNotFoundError _ => Some (
           logger_error ("Error converting " ++ Path.name mp4_filepath
                           ++ ": ffmpeg command not found.") ;;
           ret false)
       | CalledProcessError rc err _ => Some (
           logger_error ("Error converting " ++ Path.name mp4_filepath
                           ++ ". ffmpeg exited with status " ++ Str.of_Z rc ++ ".") ;;
           logger_error ("ffmpeg stderr:" ++ Str.nl ++ err) ;;
           ret false)
       | _ => Some (
           logger_error ("An unexpected error occurred during conversion of "
                           ++ Path.name mp4_filepath ++ ": " ++ Exn.str e) ;;
           ret false)
       end).

Definition base_dir : path := Path.parent (script_file w).
Definition source_dir : path := base_dir // MP4_SOURCE_DIR.
Definition export_dir : path := base_dir // APNG_EXPORT_DIR.

(** Lines 170 and 171: where the output of one input goes. *)
Definition apng_file_path (mp4_file_path : path) : path :=
  export_dir // (Path.stem mp4_file_path ++ ".apng").

(** The body of the loop of lines 167 to 176, on the pair
    [(success_count, failure_count)]. *)
Definition loop_body (mp4_file_path : path) (counts : nat * nat) : M (nat * nat) :=
  let '(success_count, failure_count) := counts in
  ok <- convert_mp4_to_apng mp4_file_path (apng_file_path mp4_file_path) ;;
  if ok then ret (success_count + 1, failure_count)
  else ret (success_count, failure_count + 1).

Definition main : M unit :=
  logger_info "--- MP4 to APNG Conversion Script Started ---" ;;
  (* 1. Check for ffmpeg *)
  available <- check_ffmpeg ;;
  when (negb available) (sys_exit 1) ;;
  (* 2. Define and check source and export directories *)
  logger_info ("Source directory: " ++ Path.str source_dir) ;;
  logger_info ("Export directory: " ++ Path.str export_dir) ;;
  src_ok <- is_dir source_dir ;;
  when (negb src_ok) (
    logger_error ("Source directory '" ++ Path.str source_dir
      ++ "' not found. Please create it and place your MP4 files inside.") ;;
    sys_exit 1) ;;
  exp_ok <- is_dir export_dir ;;
  when (negb exp_ok) (
    logger_info ("Export directory '" ++ Path.str export_dir
      ++ "' not found. Creating it now.") ;;
    try_except (path_mkdir export_dir)
      (fun e =>
         if Exn.is_OSError e then Some (
           logger_error ("Failed to create export directory '"
             ++ Path.str export_dir ++ "': " ++ Exn.str e) ;;
           sys_exit 1)
         else None)) ;;
  (* 3. Find MP4 files in the source directory *)
  mp4_files <- glob source_dir "*.mp4" ;;
  when (match mp4_files with [] => true | _ => false end) (
    logger_warning ("No MP4 files found in '" ++ Path.str source_dir
      ++ "'. Nothing to convert.") ;;
    logger_info "--- Conversion Script Finished (No Files) ---" ;;
    sys_exit 0) ;;
  logger_info ("Found " ++ Str.of_nat (List.length mp4_files) ++ " MP4 file(s) to process.") ;;
  (* 4. Process each MP4 file *)
  counts <- for_each mp4_files loop_body (0, 0) ;;
  let '(success_count, failure_count) := counts in
  (* 5. Log summary *)
  logger_info "--- Conversion Summary ---" ;;
  logger_info ("Total files processed: " ++ Str.of_nat (List.length mp4_files)) ;;
  logger_info ("Successful conversions: " ++ Str.of_nat success_count) ;;
  logger_info ("Failed conversions: " ++ Str.of_nat failure_count) ;;
  logger_info ("Log file saved to: " ++ Path.str (base_dir // LOG_FILE)) ;;
  logger_info ("Converted APNG files are in: " ++ Path.str export_dir) ;;
  logger_info "--- MP4 to APNG Conversion Script Finished ---" ;;
  if (0 <? failure_count)%nat then sys_exit 1 else sys_exit 0.

(** The script run as a program: the module level, then [main()]. *)
Definition script : M unit := module_init ;; main.

(** One run: the effects performed and the exit status of the process. *)
Definition run : trace * Z :=
  let '(t, o) := script [] in (t, exit_status o).

End Script.

(** ** Conditions on the environment, observations of a run *)

Definition version_cmd : list string := ["ffmpeg"; "-version"].

(** The executable of the tool cannot be located. *)
Definition tool_missing (w : World) : Prop :=
  exists s, tool w 0 version_cmd = Failed (FileNotFoundError s).

(** The version invocation ends with a status other than 0. *)
Definition tool_nonzero (w : World) : Prop :=
  exists r, tool w 0 version_cmd = Ran r /\ returncode r <> 0%Z.

Definition tool_unavailable (w : World) : Prop :=
  tool_missing w \/ tool_nonzero w.

Definition tool_available (w : World) : Prop :=
  exists r, tool w 0 version_cmd = Ran r /\ returncode r = 0%Z.

Definition source_present (w : World) : Prop :=
  Fs.is_dir (root w) (source_dir w) = true.

Definition export_present (w : World) : Prop :=
  Fs.is_dir (root w) (export_dir w) = true.

(** The export directory is there when discovery starts: it was, or it
    could be made. *)
Definition export_ready (w : World) : Prop :=
  export_present w \/ mkdir w (export_dir w) = None.

(** The export directory is absent and cannot be made. *)
Definition export_fails (w : World) : Prop :=
  ~ export_present w /\ exists s, mkdir w (export_dir w) = Some s.

(** Nothing stops the run before file discovery. *)
Definition reaches_discovery (w : World) : Prop :=
  log_open w = None /\ tool_available w /\ source_present w /\ export_ready w.

(** The files discovery finds (line 154). *)
Definition discovered (w : World) : list path :=
  Fs.glob (root w) (source_dir w) "*.mp4".

(** The records of the summary (lines 180 to 186), for the three numbers it
    reports. *)
Definition summary_records (w : World) (total successes failures : nat) : trace :=
  [ Log INFO "--- Conversion Summary ---";
    Log INFO ("Total files processed: " ++ Str.of_nat total);
    Log INFO ("Successful conversions: " ++ Str.of_nat successes);
    Log INFO ("Failed conversions: " ++ Str.of_nat failures);
    Log INFO ("Log file saved to: " ++ Path.str (base_dir w // LOG_FILE));
    Log INFO ("Converted APNG files are in: " ++ Path.str (export_dir w));
    Log INFO "--- MP4 to APNG Conversion Script Finished ---" ].

(** The run got to the summary: its first record is in the trace. *)
Definition summarized (t : trace) : Prop :=
  In (Log INFO "--- Conversion Summary ---") t.

(** What the loop may do: log and start child processes; it never writes
    the first record of the summary. *)
Definition loop_event (e : event) : Prop :=
  match e with
  | Run _ => True
  | Log lvl m => Log lvl m <> Log INFO "--- Conversion Summary ---"
  | _ => False
  end.

(** The effects of [main] up to the call of the tool. *)
Definition checking : trace :=
  [ Log INFO "--- MP4 to APNG Conversion Script Started ---";
    Log INFO "Checking for ffmpeg executable...";
    Run version_cmd ].

(** The effects of [main] up to the test of the source directory, when the
    tool is available. *)
Definition resolving (w : World) : trace :=
  (checking ++
  [ Log INFO "ffmpeg found.";
    Log INFO ("Source directory: " ++ Path.str (source_dir w));
    Log INFO ("Export directory: " ++ Path.str (export_dir w));
    IsDir (source_dir w) ])%list.

(** The effects of making the export directory (lines 146 and 148). *)
Definition creating (w : World) : trace :=
  [ Log INFO ("Export directory '" ++ Path.str (export_dir w)
                ++ "' not found. Creating it now.");
    Mkdir (export_dir w) ].

(** The effects of [main] up to discovery, when nothing was fatal. *)
Definition preparing (w : World) : trace :=
  (resolving w ++ [IsDir (export_dir w)]
     ++ (if Fs.is_dir (root w) (export_dir w) then [] else creating w)
     ++ [Glob (source_dir w) "*.mp4"])%list.

(** The effects of the branch of lines 156 to 159. *)
Definition nothing_to_do (w : World) : trace :=
  [ Log WARNING ("No MP4 files found in '" ++ Path.str (source_dir w)
                   ++ "'. Nothing to convert.");
    Log INFO "--- Conversion Script Finished (No Files) ---";
    Exit 0 ].

(** The one effect of the module level. *)
Definition opened (w : World) : trace := [OpenLog (cwd w // LOG_FILE)].

(** An effect that writes to the file system: opening the log file for
    writing, a record going to the log file, making a directory. *)
Definition fs_write (e : event) : bool :=
  match e with
  | OpenLog _ | Log _ _ | Mkdir _ => true
  | _ => false
  end.

(** The run leaves the file system as it found it. *)
Definition untouched (t : trace) : Prop :=
  Forall (fun e => fs_write e = false) t.

(** The summary reports [n] files. *)
Definition reports_total (t : trace) (n : nat) : Prop :=
  In (Log INFO ("Total files processed: " ++ Str.of_nat n)) t.

(** The same environment, the program started from another directory. *)
Definition with_cwd (c : path) (w : World) : World :=
  {| cwd := c;
     script_file := script_file w;
     root := root w;
     log_open := log_open w;
     tool := tool w;
     mkdir := mkdir w;
     called_text := called_text w |}.

(** A computation only adds to the trace it is given. *)
Definition extends {A} (m : M A) : Prop :=
  forall t, exists evs, fst (m t) = (t ++ evs)%list.

(** ** Sample environments *)

Module Sample.

Definition entries : list (string * node) :=
  [ ("clip_a.mp4", File);
    ("notes.txt", File);
    ("clip_b.mp4", File);
    ("CLIP.MP4", File);
    ("takes.mp4", Dir [("inner.mp4", File)]) ].

(** The script in [/opt/app], next to a source directory with [entries]. *)
Definition tree (es : list (string * node)) : node :=
  Dir [ ("opt", Dir [ ("app", Dir [ ("mp4_to_apng.py", File);
                                    ("mp4", Dir es) ]) ]);
        ("home", Dir [ ("u", Dir []) ]);
        ("tmp", Dir []) ].

Definition done : spawn :=
  Ran {| returncode := 0; stdout := "out"; stderr := "frames" |}.

Definition broken : spawn :=
  Ran {| returncode := 1; stdout := EmptyString; stderr := "Invalid data" |}.

(** The tool is installed; its third process (the second conversion)
    ends with status 1. *)
Definition world : World :=
  {| cwd := ["home"; "u"];
     script_file := ["opt"; "app"; "mp4_to_apng.py"];
     root := tree entries;
     log_open := None;
     tool := fun n _ => if Nat.eqb n 2 then broken else done;
     mkdir := fun _ => None;
     called_text := fun _ _ => "Command returned non-zero exit status 1." |}.

(** The tool is not installed. *)
Definition no_tool : World :=
  {| cwd := ["home"; "u"];
     script_file := ["opt"; "app"; "mp4_to_apng.py"];
     root := tree entries;
     log_open := None;
     tool := fun _ _ => Failed (FileNotFoundError "No such file or directory: 'ffmpeg'");
     mkdir := fun _ => None;
     called_text := fun _ _ => EmptyString |}.

(** The source directory holds nothing that ends in [.mp4]. *)
Definition empty : World :=
  {| cwd := ["home"; "u"];
     script_file := ["opt"; "app"; "mp4_to_apng.py"];
     root := tree [("notes.txt", File); ("CLIP.MP4", File)];
     log_open := None;
     tool := fun _ _ => done;
     mkdir := fun _ => None;
     called_text := fun _ _ => EmptyString |}.

(** There is no source directory. *)
Definition no_source : World :=
  {| cwd := ["home"; "u"];
     script_file := ["opt"; "app"; "mp4_to_apng.py"];
     root := Dir [ ("opt", Dir [ ("app", Dir [ ("mp4_to_apng.py", File) ]) ]) ];
     log_open := None;
     tool := fun _ _ => done;
     mkdir := fun _ => None;
     called_text := fun _ _ => EmptyString |}.

End Sample.

(** ** The handlers of the logger (lines 37 to 55) *)

(** The numbers [logging] gives the levels. *)
Definition levelno (l : level) : Z :=
  match l with
  | DEBUG => 10
  | INFO => 20
  | WARNING => 30
  | ERROR => 40
  end.

Definition LOGGER_LEVEL : level := DEBUG.  (* logger.setLevel(logging.DEBUG) *)
Definition FH_LEVEL : level := DEBUG.      (* fh.setLevel(logging.DEBUG) *)
Definition CH_LEVEL : level := INFO.       (* ch.setLevel(logging.INFO) *)

(** A handler is given a record to write when the logger lets it through
    and the level of the record is at least the handler's. *)
Definition handler_takes (handler_level lvl : level) : bool :=
  ((levelno LOGGER_LEVEL <=? levelno lvl) && (levelno handler_level <=? levelno lvl))%Z.

(** The records a handler of that level is given to write, in order.
    Whether its stream takes them is the stream's affair: a handler drops a
    record its stream cannot encode or write. *)
Definition records_of (handler_level : level) (t : trace) : list (level * string) :=
  flat_map (fun e =>
              match e with
              | Log l m => if handler_takes handler_level l then [(l, m)] else []
              | _ => []
              end) t.

(** What the console handler is given to write on stdout, and what the file
    handler is given to write to the log file. *)
Definition sent_to_log_file (t : trace) : list (level * string) := records_of FH_LEVEL t.
Definition sent_to_console (t : trace) : list (level * string) := records_of CH_LEVEL t.

(** ** More observations *)

(** [subprocess.run], asked for the [n]-th process of the run with [argv],
    comes back with a completed process whose status is 0.  (It does not
    when it raises, which it may do after the child has exited with 0: with
    [text=True], on output it cannot decode.) *)
Definition succeeded (w : World) (n : nat) (argv : list string) : bool :=
  match tool w n argv with
  | Ran r => (returncode r =? 0)%Z
  | Failed _ => false
  end.

(** For how many of [files] the [subprocess.run] of the conversion comes
    back with status 0, when the first conversion is the [n]-th process of
    the run. *)
Fixpoint successes (w : World) (n : nat) (files : list path) : nat :=
  match files with
  | [] => 0
  | p :: rest =>
      (if succeeded w n (command p (apng_file_path w p)) then 1 else 0)
      + successes w (S n) rest
  end.

(** A computation adds to the trace only events that satisfy [P]. *)
Definition emits {A} (P : event -> Prop) (m : M A) : Prop :=
  forall t, exists evs, fst (m t) = (t ++ evs)%list /\ Forall P evs.

(** Where the effects of the script may land. *)
Definition confined (w : World) (e : event) : Prop :=
  match e with
  | OpenLog p => p = cwd w // LOG_FILE
  | Log _ _ => True
  | Run argv => argv = version_cmd \/ exists i o, argv = command i o
  | IsDir p => p = source_dir w \/ p = export_dir w
  | Mkdir p => p = export_dir w
  | Glob p pat => p = source_dir w /\ pat = "*.mp4"
  | Exit c => c = 0%Z \/ c = 1%Z
  end.

Definition is_mkdir (e : event) : bool :=
  match e with Mkdir _ => true | _ => false end.

Definition is_glob (e : event) : bool :=
  match e with Glob _ _ => true | _ => false end.

(** ** More sample environments *)

Module Cases.

(** The tool is there but may not be executed. *)
Definition not_executable : World :=
  {| cwd := ["home"; "u"];
     script_file := ["opt"; "app"; "mp4_to_apng.py"];
     root := Sample.tree Sample.entries;
     log_open := None;
     tool := fun _ _ => Failed (OSError "[Errno 13] Permission denied: 'ffmpeg'");
     mkdir := fun _ => None;
     called_text := fun _ _ => EmptyString |}.

(** The export directory is missing and may not be made. *)
Definition read_only : World :=
  {| cwd := ["home"; "u"];
     script_file := ["opt"; "app"; "mp4_to_apng.py"];
     root := Sample.tree Sample.entries;
     log_open := None;
     tool := fun _ _ => Sample.done;
     mkdir := fun _ => Some "[Errno 13] Permission denied: '/opt/app/export'";
     called_text := fun _ _ => EmptyString |}.

(** The export directory is there already. *)
Definition ready : World :=
  {| cwd := ["home"; "u"];
     script_file := ["opt"; "app"; "mp4_to_apng.py"];
     root := Dir [ ("opt", Dir [ ("app", Dir [ ("mp4", Dir Sample.entries);
                                               ("export", Dir []) ]) ]) ];
     log_open := None;
     tool := fun _ _ => Sample.done;
     mkdir := fun _ => Some "unused";
     called_text := fun _ _ => EmptyString |}.

(** Two files whose outputs have the same name. *)
Definition clash : World :=
  {| cwd := ["home"; "u"];
     script_file := ["opt"; "app"; "mp4_to_apng.py"];
     root := Sample.tree [(".mp4", File); (".mp4.mp4", File)];
     log_open := None;
     tool := fun _ _ => Sample.done;
     mkdir := fun _ => None;
     called_text := fun _ _ => EmptyString |}.

(** The tool works, but what it prints cannot be decoded: the child of
    each conversion exits with 0 and [subprocess.run] raises
    [UnicodeDecodeError]. *)
Definition garbled : World :=
  {| cwd := ["home"; "u"];
     script_file := ["opt"; "app"; "mp4_to_apng.py"];
     root := Sample.tree [("clip_a.mp4", File)];
     log_open := None;
     tool := fun n _ =>
               if Nat.eqb n 0 then Sample.done
               else Failed (OtherException "'utf-8' codec can't decode byte 0xff in position 0: invalid start byte");
     mkdir := fun _ => None;
     called_text := fun _ _ => EmptyString |}.

End Cases.

Local Open Scope list_scope.

(** ** The definitions at work *)

Example stem_clip : Path.stem ["home"; "u"; "mp4"; "clip_a.mp4"] = "clip_a".
Proof. reflexivity. Qed.

Example stem_two_dots : Path.stem ["mp4"; "a.b.mp4"] = "a.b".
Proof. reflexivity. Qed.

Example stem_hidden : Path.stem ["mp4"; ".mp4"] = ".mp4".
Proof. reflexivity. Qed.

Example fnmatch_yes : Str.fnmatch "*.mp4" "clip_a.mp4" = true.
Proof. reflexivity. Qed.

Example fnmatch_upper : Str.fnmatch "*.mp4" "CLIP.MP4" = false.
Proof. reflexivity. Qed.

Example fnmatch_hidden : Str.fnmatch "*.mp4" ".mp4" = true.
Proof. reflexivity. Qed.

Example fnmatch_no : Str.fnmatch "*.mp4" "clip.mp4.bak" = false.
Proof. reflexivity. Qed.

Example str_path : Path.str ["home"; "u"; "mp4"] = "/home/u/mp4".
Proof. reflexivity. Qed.

Example two_of_three :
  reports_total (fst (run Sample.world)) 3
  /\ In (Log INFO "Successful conversions: 2") (fst (run Sample.world))
  /\ In (Log INFO "Failed conversions: 1") (fst (run Sample.world))
  /\ snd (run Sample.world) = 1%Z.
Proof. unfold reports_total. vm_compute. intuition. Qed.

Example no_source_trace :
  run Sample.no_source
  = ([ OpenLog ["home"; "u"; "conversion.log"];
       Log INFO "--- MP4 to APNG Conversion Script Started ---";
       Log INFO "Checking for ffmpeg executable...";
       Run ["ffmpeg"; "-version"];
       Log INFO "ffmpeg found.";
       Log INFO "Source directory: /opt/app/mp4";
       Log INFO "Export directory: /opt/app/export";
       IsDir ["opt"; "app"; "mp4"];
       Log ERROR "Source directory '/opt/app/mp4' not found. Please create it and place your MP4 files inside.";
       Exit 1 ], 1%Z).
Proof. reflexivity. Qed.

(** ** The monad *)

Lemma runs_app (t u : trace) : runs (t ++ u) = runs t ++ runs u.
Proof. unfold runs. apply flat_map_app. Qed.

Lemma bind_Ret {A B} (m : M A) (k : A -> M B) t t' a :
  m t = (t', Ret a) -> bind m k t = k a t'.
Proof. intros H. unfold bind. now rewrite H. Qed.

Lemma bind_Exited {A B} (m : M A) (k : A -> M B) t t' c :
  m t = (t', Exited c) -> bind m k t = (t', Exited c).
Proof. intros H. unfold bind. now rewrite H. Qed.

Lemma bind_Raised {A B} (m : M A) (k : A -> M B) t t' e :
  m t = (t', Raised e) -> bind m k t = (t', Raised e).
Proof. intros H. unfold bind. now rewrite H. Qed.

(** ** One conversion *)

Ltac run_monad :=
  cbv beta iota delta
    [bind ret emit raise try_except when sys_exit negb
     logger_debug logger_info logger_warning logger_error].

Ltac flatten_trace := rewrite <- ?app_assoc; cbn [List.app].

(** A conversion always completes, with a boolean: whatever the child
    process does, one process is started, with the built command. *)
Lemma convert_total (w : World) (i o : path) (t : trace) :
  exists evs b,
    convert_mp4_to_apng w i o t = (t ++ evs, Ret b)
    /\ runs evs = [command i o]
    /\ Forall loop_event evs.
Proof.
  unfold convert_mp4_to_apng, subprocess_run. run_monad.
  destruct (tool w _ _) as [r | e].
  - destruct (returncode r =? 0)%Z.
    + eexists; exists true. flatten_trace. split; [reflexivity|].
      split; [reflexivity|].
      repeat constructor; cbn; discriminate.
    + eexists; exists false. flatten_trace. split; [reflexivity|].
      split; [reflexivity|].
      repeat constructor; cbn; discriminate.
  - destruct e; eexists; exists false; flatten_trace;
      (split; [reflexivity|]); (split; [reflexivity|]);
      repeat constructor; cbn; discriminate.
Qed.

(** ** The loop *)

(** The loop runs to its end on every list of files: each file adds one to
    one of the two counters and starts one child process. *)
Lemma loop_total (w : World) (files : list path) :
  forall (t : trace) (s f : nat),
  exists evs s' f',
    for_each files (loop_body w) (s, f) t = (t ++ evs, Ret (s', f'))
    /\ s' + f' = s + f + List.length files
    /\ runs evs = map (fun p => command p (apng_file_path w p)) files
    /\ Forall loop_event evs.
Proof.
  induction files as [|p files IH]; intros t s f.
  - exists [], s, f. cbn. rewrite app_nil_r.
    repeat split; [lia | constructor].
  - destruct (convert_total w p (apng_file_path w p) t)
      as (evs1 & b & Hc & Hr1 & Hl1).
    assert (Hbody : exists s1 f1,
               loop_body w p (s, f) t = (t ++ evs1, Ret (s1, f1))
               /\ s1 + f1 = s + f + 1).
    { unfold loop_body. destruct b.
      - exists (s + 1), f. rewrite (bind_Ret _ _ _ _ _ Hc). split; [reflexivity | lia].
      - exists s, (f + 1). rewrite (bind_Ret _ _ _ _ _ Hc). split; [reflexivity | lia]. }
    destruct Hbody as (s1 & f1 & Hb & Hsum).
    destruct (IH (t ++ evs1) s1 f1) as (evs2 & s' & f' & Hl & Hsum' & Hr2 & Hl2).
    exists (evs1 ++ evs2), s', f'.
    cbn [for_each]. rewrite (bind_Ret _ _ _ _ _ Hb), Hl, app_assoc.
    repeat split.
    + cbn [List.length]. lia.
    + rewrite runs_app, Hr1, Hr2. reflexivity.
    + apply Forall_app. now split.
Qed.

(** ** The check of the tool *)

Lemma check_ffmpeg_available (w : World) (t : trace) :
  runs t = [] -> tool_available w ->
  check_ffmpeg w t =
    (t ++ [Log INFO "Checking for ffmpeg executable..."; Run version_cmd;
           Log INFO "ffmpeg found."], Ret true).
Proof.
  intros Ht (r & Hr & Hz).
  unfold check_ffmpeg, subprocess_run. run_monad.
  rewrite runs_app, Ht. simpl (List.length _).
  fold version_cmd. rewrite Hr, Hz. cbn. flatten_trace. reflexivity.
Qed.

(** When the tool cannot be located or its version invocation ends with a
    status other than 0, the check logs one error and answers [False]. *)
Lemma check_ffmpeg_unavailable (w : World) (t : trace) :
  runs t = [] -> tool_unavailable w ->
  exists m,
    check_ffmpeg w t =
      (t ++ [Log INFO "Checking for ffmpeg executable..."; Run version_cmd;
             Log ERROR m], Ret false).
Proof.
  intros Ht H.
  unfold check_ffmpeg, subprocess_run. run_monad.
  rewrite runs_app, Ht. simpl (List.length _).
  fold version_cmd.
  destruct H as [(s & Hs) | (r & Hr & Hz)].
  - rewrite Hs. eexists. flatten_trace. reflexivity.
  - rewrite Hr. apply Z.eqb_neq in Hz. rewrite Hz.
    eexists. cbn. flatten_trace. reflexivity.
Qed.

(** Every outcome of the check: [True], [False] after one error record, or
    an exception no clause of the check takes. *)
Lemma check_ffmpeg_cases (w : World) (t : trace) :
  runs t = [] ->
  tool_available w
  \/ (exists m,
        check_ffmpeg w t =
          (t ++ [Log INFO "Checking for ffmpeg executable..."; Run version_cmd;
                 Log ERROR m], Ret false))
  \/ (exists e,
        check_ffmpeg w t =
          (t ++ [Log INFO "Checking for ffmpeg executable..."; Run version_cmd],
           Raised e)).
Proof.
  intros Ht.
  destruct (tool w 0 version_cmd) as [r | e] eqn:Htool.
  - destruct (Z.eq_dec (returncode r) 0) as [Hz | Hz].
    + left. now exists r.
    + right; left. apply check_ffmpeg_unavailable; [assumption|].
      right. now exists r.
  - right.
    unfold check_ffmpeg, subprocess_run. run_monad.
    rewrite runs_app, Ht. simpl (List.length _).
    fold version_cmd. rewrite Htool.
    destruct e; flatten_trace;
      first [ left; eexists; reflexivity | right; eexists; reflexivity ].
Qed.

(** ** The stages of [main] *)

Ltac enter_main Ht :=
  unfold main, is_dir, glob, path_mkdir; run_monad;
  match goal with
  | |- context [check_ffmpeg ?w ?t] =>
      let H := fresh "Hidx" in
      assert (H : runs t = []) by (rewrite runs_app, Ht; reflexivity)
  end.

(** The tool is not available: [main] stops after the error of the check. *)
Lemma main_tool_unavailable (w : World) (t : trace) :
  runs t = [] -> tool_unavailable w ->
  exists m, main w t = (t ++ checking ++ [Log ERROR m; Exit 1], Exited 1).
Proof.
  intros Ht Hu. enter_main Ht.
  destruct (check_ffmpeg_unavailable w _ Hidx Hu) as (m & Hm).
  rewrite Hm. exists m. cbn. flatten_trace. reflexivity.
Qed.

(** The source directory is missing. *)
Lemma main_source_missing (w : World) (t : trace) :
  runs t = [] -> tool_available w -> ~ source_present w ->
  exists m, main w t = (t ++ resolving w ++ [Log ERROR m; Exit 1], Exited 1).
Proof.
  intros Ht Ha Hs. enter_main Ht.
  rewrite (check_ffmpeg_available w _ Hidx Ha).
  unfold source_present in Hs. apply not_true_is_false in Hs.
  cbn. rewrite Hs. eexists. cbn. flatten_trace. reflexivity.
Qed.

(** The export directory is missing and cannot be made. *)
Lemma main_export_fails (w : World) (t : trace) :
  runs t = [] -> tool_available w -> source_present w -> export_fails w ->
  exists m,
    main w t =
      (t ++ resolving w ++ [IsDir (export_dir w)] ++ creating w
         ++ [Log ERROR m; Exit 1], Exited 1).
Proof.
  intros Ht Ha Hs (He & s & Hm). enter_main Ht.
  rewrite (check_ffmpeg_available w _ Hidx Ha).
  unfold source_present in Hs. unfold export_present in He.
  apply not_true_is_false in He.
  cbn. rewrite Hs. cbn. rewrite He. cbn. rewrite Hm. cbn.
  eexists. flatten_trace. reflexivity.
Qed.

(** The export directory is there once line 151 is passed. *)
Lemma export_ready_cases (w : World) :
  export_ready w ->
  Fs.is_dir (root w) (export_dir w) = true
  \/ (Fs.is_dir (root w) (export_dir w) = false /\ mkdir w (export_dir w) = None).
Proof.
  unfold export_ready, export_present. intros [H | H].
  - now left.
  - destruct (Fs.is_dir (root w) (export_dir w)); [now left | now right].
Qed.

(** No file is found: a warning, and the run ends with status 0. *)
Lemma main_no_files (w : World) (t : trace) :
  runs t = [] -> tool_available w -> source_present w -> export_ready w ->
  discovered w = [] ->
  main w t = (t ++ preparing w ++ nothing_to_do w, Exited 0%Z).
Proof.
  intros Ht Ha Hs He Hd. enter_main Ht.
  rewrite (check_ffmpeg_available w _ Hidx Ha).
  unfold source_present in Hs. unfold discovered in Hd.
  unfold preparing, resolving, checking, creating, nothing_to_do.
  run_monad. rewrite Hs. run_monad.
  destruct (export_ready_cases w He) as [Hexp | [Hexp Hm]]; rewrite Hexp.
  - run_monad. rewrite Hd. run_monad. flatten_trace. reflexivity.
  - run_monad. rewrite Hm. run_monad. rewrite Hd. run_monad.
    flatten_trace. reflexivity.
Qed.

(** Files are found: the loop runs over all of them, the summary is
    written, and the status is 1 exactly when a conversion failed. *)
Lemma main_full (w : World) (t : trace) :
  runs t = [] -> tool_available w -> source_present w -> export_ready w ->
  discovered w <> [] ->
  exists evs s f,
    main w t =
      (t ++ preparing w
         ++ [Log INFO ("Found " ++ Str.of_nat (List.length (discovered w))
                         ++ " MP4 file(s) to process.")%string]
         ++ evs
         ++ summary_records w (List.length (discovered w)) s f
         ++ [Exit (if (0 <? f)%nat then 1 else 0)%Z],
       Exited (if (0 <? f)%nat then 1 else 0)%Z)
    /\ s + f = List.length (discovered w)
    /\ runs evs = map (fun p => command p (apng_file_path w p)) (discovered w)
    /\ Forall loop_event evs.
Proof.
  intros Ht Ha Hs He Hd. enter_main Ht.
  rewrite (check_ffmpeg_available w _ Hidx Ha).
  unfold source_present in Hs. unfold discovered in *.
  unfold preparing, resolving, checking, creating, summary_records.
  run_monad. rewrite Hs. run_monad.
  assert (Hloop : forall T,
    exists evs s f,
      for_each (Fs.glob (root w) (source_dir w) "*.mp4") (loop_body w) (0, 0) T
        = (T ++ evs, Ret (s, f))
      /\ s + f = List.length (Fs.glob (root w) (source_dir w) "*.mp4")
      /\ runs evs = map (fun p => command p (apng_file_path w p))
                        (Fs.glob (root w) (source_dir w) "*.mp4")
      /\ Forall loop_event evs).
  { intros T. apply loop_total. }
  destruct (Fs.glob (root w) (source_dir w) "*.mp4") as [|p ps] eqn:Hg;
    [congruence|].
  destruct (export_ready_cases w He) as [Hexp | [Hexp Hm]]; rewrite Hexp.
  - run_monad.
    match goal with
    | |- context [for_each _ _ _ ?T] =>
        destruct (Hloop T) as (evs & s & f & H1 & H2 & H3 & H4)
    end.
    rewrite H1. exists evs, s, f. split; [|repeat split; assumption].
    destruct (0 <? f)%nat; flatten_trace; reflexivity.
  - run_monad. rewrite Hm. run_monad.
    match goal with
    | |- context [for_each _ _ _ ?T] =>
        destruct (Hloop T) as (evs & s & f & H1 & H2 & H3 & H4)
    end.
    rewrite H1. exists evs, s, f. split; [|repeat split; assumption].
    destruct (0 <? f)%nat; flatten_trace; reflexivity.
Qed.

(** ** Names and patterns *)

Lemma of_nat_inj (n m : nat) : Str.of_nat n = Str.of_nat m -> n = m.
Proof.
  assert (Hnil : forall k, Nat.to_uint k <> Nil).
  { intros k. rewrite <- (DecimalNat.Unsigned.of_to k) at 1.
    rewrite DecimalNat.Unsigned.to_of. apply DecimalFacts.unorm_nonnil. }
  unfold Str.of_nat. intros H.
  apply DecimalNat.Unsigned.to_uint_inj.
  assert (E : NilZero.uint_of_string (NilZero.string_of_uint (Nat.to_uint n))
              = NilZero.uint_of_string (NilZero.string_of_uint (Nat.to_uint m)))
    by now rewrite H.
  rewrite !NilZero.usu in E by apply Hnil. congruence.
Qed.

Lemma fnmatch_star_cons (pat : string) (a : ascii) (n : string) :
  Str.fnmatch (String "*" pat) (String a n)
  = Str.fnmatch pat (String a n) || Str.fnmatch (String "*" pat) n.
Proof. reflexivity. Qed.

Lemma fnmatch_dot_mp4 (n : string) :
  Str.fnmatch ".mp4" n = true <-> n = ".mp4"%string.
Proof.
  split.
  - intros H.
    repeat (destruct n as [|? n]; cbn in H; try discriminate;
            apply andb_prop in H; destruct H as [Hc H];
            apply Ascii.eqb_eq in Hc; subst).
    destruct n; [reflexivity | discriminate].
  - intros ->. reflexivity.
Qed.

(** A name matches [*.mp4] exactly when it ends with [.mp4]. *)
Lemma fnmatch_mp4 (n : string) :
  Str.fnmatch "*.mp4" n = true <-> exists s, n = (s ++ ".mp4")%string.
Proof.
  induction n as [|a n IH].
  - split; [discriminate|]. intros ([|? ?] & H); discriminate.
  - rewrite fnmatch_star_cons, orb_true_iff, fnmatch_dot_mp4, IH. split.
    + intros [H | (s & ->)].
      * exists EmptyString. exact H.
      * exists (String a s). reflexivity.
    + intros ([|b s] & H).
      * left. exact H.
      * right. exists s. cbn in H. congruence.
Qed.

Lemma rfind_dot_mp4 (s : string) :
  Str.rfind "." (s ++ ".mp4") = Z.of_nat (String.length s).
Proof.
  induction s as [|a s IH]; [reflexivity|].
  cbn [append Str.rfind String.length]. rewrite IH.
  destruct (0 <=? Z.of_nat (String.length s))%Z eqn:E; [lia|].
  apply Z.leb_gt in E. lia.
Qed.

Lemma length_append_mp4 (s : string) :
  String.length (s ++ ".mp4") = String.length s + 4.
Proof. induction s as [|a s IH]; cbn; [reflexivity | now rewrite IH]. Qed.

Lemma take_prefix (s u : string) :
  Str.take (Z.of_nat (String.length s)) (s ++ u) = s.
Proof.
  unfold Str.take. rewrite Nat2Z.id.
  induction s as [|a s IH]; cbn.
  - now destruct u.
  - now rewrite IH.
Qed.

Lemma name_div (d : path) (n : string) : Path.name (d // n) = n.
Proof. unfold Path.name, Path.div. apply last_last. Qed.

(** The stem of [s.mp4] is [s], unless [s] is empty: pathlib takes a name
    that starts with its only dot to have no suffix. *)
Lemma stem_mp4 (d : path) (s : string) :
  Path.stem (d // (s ++ ".mp4")%string)
  = match s with EmptyString => ".mp4"%string | _ => s end.
Proof.
  unfold Path.stem. rewrite name_div, rfind_dot_mp4, length_append_mp4.
  destruct s as [|a s]; [reflexivity|].
  set (s' := String a s).
  replace ((0 <? Z.of_nat (String.length s'))
           && (Z.of_nat (String.length s') <? Z.of_nat (String.length s' + 4) - 1))%Z
    with true.
  - apply take_prefix.
  - symmetry. apply andb_true_iff. split; apply Z.ltb_lt; subst s'; cbn [String.length]; lia.
Qed.

(** ** Discovery *)

Lemma glob_entries (r : node) (d : path) (pat : string) (es : list (string * node)) :
  Fs.lookup r d = Some (Dir es) ->
  Fs.glob r d pat
  = map (fun e => d // fst e) (filter (fun e => Str.fnmatch pat (fst e)) es).
Proof. intros H. unfold Fs.glob. now rewrite H. Qed.

Lemma is_dir_entries (r : node) (d : path) :
  Fs.is_dir r d = true -> exists es, Fs.lookup r d = Some (Dir es).
Proof.
  unfold Fs.is_dir. destruct (Fs.lookup r d) as [[| |es]|]; try discriminate.
  intros _. now exists es.
Qed.

(** What discovery finds is an entry of the source directory with a name
    in [.mp4], whatever the entry is. *)
Lemma discovered_iff (w : World) (es : list (string * node)) (p : path) :
  Fs.lookup (root w) (source_dir w) = Some (Dir es) ->
  In p (discovered w) <->
  exists nm nd s,
    In (nm, nd) es /\ nm = (s ++ ".mp4")%string /\ p = source_dir w // nm.
Proof.
  intros H. unfold discovered. rewrite (glob_entries _ _ _ _ H), in_map_iff.
  split.
  - intros ([nm nd] & <- & Hin). apply filter_In in Hin. destruct Hin as [Hin Hm].
    cbn [fst] in *. apply fnmatch_mp4 in Hm. destruct Hm as (s & ->).
    exists (s ++ ".mp4")%string, nd, s. repeat split. exact Hin.
  - intros (nm & nd & s & Hin & -> & ->).
    exists ((s ++ ".mp4")%string, nd). split; [reflexivity|].
    apply filter_In. split; [exact Hin|]. cbn [fst]. apply fnmatch_mp4. now exists s.
Qed.

Lemma discovered_shape (w : World) (p : path) :
  In p (discovered w) -> exists s, p = source_dir w // (s ++ ".mp4")%string.
Proof.
  intros Hin.
  destruct (Fs.lookup (root w) (source_dir w)) as [[| |es]|] eqn:H;
    try (unfold discovered, Fs.glob in Hin; rewrite H in Hin; destruct Hin).
  apply (discovered_iff w es p H) in Hin.
  destruct Hin as (nm & nd & s & _ & -> & ->). now exists s.
Qed.

(** ** Whole runs *)

Lemma run_log_fails (w : World) (s : string) :
  log_open w = Some s -> run w = (opened w, 1%Z).
Proof.
  intros H. unfold run, script, module_init. run_monad. rewrite H. reflexivity.
Qed.

Lemma run_main (w : World) :
  log_open w = None ->
  run w = (fst (main w (opened w)), exit_status (snd (main w (opened w)))).
Proof.
  intros H. unfold run, script, module_init. run_monad. rewrite H.
  change ([] ++ [OpenLog (cwd w // LOG_FILE)]) with (opened w).
  now destruct (main w (opened w)) as [t [[]|c|e]].
Qed.

Lemma runs_opened (w : World) : runs (opened w) = [].
Proof. reflexivity. Qed.

(** [check_ffmpeg] answers [False]: [main] exits with status 1 at once. *)
Lemma main_check_false (w : World) (t T : trace) :
  check_ffmpeg w (t ++ [Log INFO "--- MP4 to APNG Conversion Script Started ---"])
    = (T, Ret false) ->
  main w t = (T ++ [Exit 1], Exited 1%Z).
Proof.
  intros H. unfold main. run_monad. rewrite H. reflexivity.
Qed.

(** [check_ffmpeg] lets an exception through: so does [main]. *)
Lemma main_check_raised (w : World) (t T : trace) (e : exn) :
  check_ffmpeg w (t ++ [Log INFO "--- MP4 to APNG Conversion Script Started ---"])
    = (T, Raised e) ->
  main w t = (T, Raised e).
Proof.
  intros H. unfold main. run_monad. rewrite H. reflexivity.
Qed.

Lemma summarized_app (t u : trace) :
  summarized (t ++ u) <-> summarized t \/ summarized u.
Proof. unfold summarized. apply in_app_iff. Qed.

Ltac no_summary :=
  unfold summarized, opened, checking, resolving, creating, preparing,
    nothing_to_do;
  rewrite ?in_app_iff; cbn; intuition discriminate.

Lemma resolving_quiet (w : World) : ~ summarized (opened w ++ resolving w).
Proof. no_summary. Qed.

Lemma preparing_quiet (w : World) : ~ summarized (opened w ++ preparing w).
Proof.
  unfold preparing. destruct (Fs.is_dir (root w) (export_dir w)); no_summary.
Qed.

(** A run gets to discovery, or it ends with status 1 and without a
    summary. *)
Lemma run_cases (w : World) :
  reaches_discovery w
  \/ (snd (run w) = 1%Z /\ ~ summarized (fst (run w))).
Proof.
  destruct (log_open w) as [s|] eqn:Hlog.
  { right. rewrite (run_log_fails w s Hlog). split; [reflexivity | no_summary]. }
  rewrite (run_main w Hlog). cbn [fst snd].
  assert (Hidx : runs (opened w ++
            [Log INFO "--- MP4 to APNG Conversion Script Started ---"]) = [])
    by reflexivity.
  destruct (check_ffmpeg_cases w _ Hidx) as [Ha | [(m & Hm) | (e & He)]].
  2: { right. rewrite (main_check_false w _ _ Hm).
       split; [reflexivity | no_summary]. }
  2: { right. rewrite (main_check_raised w _ _ _ He).
       split; [reflexivity | no_summary]. }
  destruct (Fs.is_dir (root w) (source_dir w)) eqn:Hsrc.
  2: { assert (Hs : ~ source_present w) by (unfold source_present; congruence).
       destruct (main_source_missing w _ (runs_opened w) Ha Hs) as (m & Hm).
       right. rewrite Hm. split; [reflexivity|]. cbn [fst].
       rewrite app_assoc, summarized_app.
       intros [H | H]; [now apply (resolving_quiet w) | revert H; no_summary]. }
  assert (Hready : export_ready w \/ export_fails w).
  { unfold export_ready, export_fails, export_present.
    destruct (Fs.is_dir (root w) (export_dir w)); [now left; left|].
    destruct (mkdir w (export_dir w)) as [s|] eqn:Hm.
    - right. split; [discriminate | now exists s].
    - left. now right. }
  destruct Hready as [He | He].
  2: { destruct (main_export_fails w _ (runs_opened w) Ha Hsrc He) as (m & Hm).
       right. rewrite Hm. split; [reflexivity|]. cbn [fst].
       rewrite app_assoc, summarized_app.
       intros [H | H]; [now apply (resolving_quiet w) | revert H; no_summary]. }
  left. now repeat split.
Qed.

(** A fatal precondition keeps a run from discovery. *)
Lemma fatal_stops (w : World) :
  tool_unavailable w \/ ~ source_present w \/ export_fails w ->
  ~ reaches_discovery w.
Proof.
  intros H (_ & (r & Hr & Hz) & Hs & He).
  destruct H as [[(s & Hm) | (r' & Hr' & Hz')] | [H | (Hn & s & Hm)]].
  - congruence.
  - rewrite Hr in Hr'. injection Hr' as <-. contradiction.
  - contradiction.
  - destruct He as [He | He]; [contradiction | congruence].
Qed.

(** No file is found: the run ends with status 0 after the warning. *)
Lemma run_no_files (w : World) :
  reaches_discovery w -> discovered w = [] ->
  run w = (opened w ++ preparing w ++ nothing_to_do w, 0%Z).
Proof.
  intros (Hlog & Ha & Hs & He) Hd.
  rewrite (run_main w Hlog),
    (main_no_files w _ (runs_opened w) Ha Hs He Hd).
  reflexivity.
Qed.

(** Files are found: the whole run. *)
Lemma run_full (w : World) :
  reaches_discovery w -> discovered w <> [] ->
  exists evs s f,
    run w =
      (opened w ++ preparing w
         ++ [Log INFO ("Found " ++ Str.of_nat (List.length (discovered w))
                         ++ " MP4 file(s) to process.")%string]
         ++ evs
         ++ summary_records w (List.length (discovered w)) s f
         ++ [Exit (if (0 <? f)%nat then 1 else 0)%Z],
       (if (0 <? f)%nat then 1 else 0)%Z)
    /\ s + f = List.length (discovered w)
    /\ runs evs = map (fun p => command p (apng_file_path w p)) (discovered w)
    /\ Forall loop_event evs.
Proof.
  intros (Hlog & Ha & Hs & He) Hd.
  destruct (main_full w _ (runs_opened w) Ha Hs He Hd)
    as (evs & s & f & Hm & Hsum & Hruns & Hev).
  exists evs, s, f. rewrite (run_main w Hlog), Hm. now repeat split.
Qed.

Lemma nothing_to_do_quiet (w : World) :
  ~ summarized (opened w ++ preparing w ++ nothing_to_do w).
Proof.
  rewrite app_assoc, summarized_app.
  intros [H | H]; [now apply (preparing_quiet w) | revert H; no_summary].
Qed.

(** The summary is reached only by a run that got to discovery and found
    files. *)
Lemma summarized_inv (w : World) :
  summarized (fst (run w)) -> reaches_discovery w /\ discovered w <> [].
Proof.
  intros H. destruct (run_cases w) as [Hr | [_ Hn]]; [|contradiction].
  split; [assumption|]. intros Hd.
  rewrite (run_no_files w Hr Hd) in H. now apply (nothing_to_do_quiet w).
Qed.

(** Two traces that end with a summary and an exit agree on them. *)
Lemma summary_unique (w : World) (a b : trace) (n s f n' s' f' : nat) (c c' : Z) :
  a ++ summary_records w n s f ++ [Exit c]
  = b ++ summary_records w n' s' f' ++ [Exit c'] ->
  n = n' /\ s = s' /\ f = f' /\ c = c'.
Proof.
  unfold summary_records. intros H.
  apply (f_equal (@List.rev event)) in H.
  rewrite !List.rev_app_distr in H. cbn in H.
  injection H as Hc Hf Hs Hn _.
  repeat split; try (apply of_nat_inj); congruence.
Qed.

Lemma runs_preparing (w : World) : runs (opened w ++ preparing w) = [version_cmd].
Proof.
  unfold preparing. destruct (Fs.is_dir (root w) (export_dir w)); reflexivity.
Qed.

(** The child processes of a run that gets to discovery: the check, then
    one conversion for each file found, in the order of discovery. *)
Lemma runs_of_run (w : World) :
  reaches_discovery w ->
  runs (fst (run w))
  = version_cmd :: map (fun p => command p (apng_file_path w p)) (discovered w).
Proof.
  intros Hr. destruct (discovered w) as [|p ps] eqn:Hd.
  - rewrite (run_no_files w Hr Hd). cbn [fst map].
    rewrite app_assoc, runs_app, runs_preparing. reflexivity.
  - destruct (run_full w Hr) as (evs & s & f & Hrun & _ & Hruns & _);
      [congruence|].
    rewrite Hrun. cbn [fst]. rewrite Hd in Hruns.
    rewrite app_assoc, (runs_app (opened w ++ preparing w)), runs_preparing.
    rewrite !runs_app, Hruns. cbn [runs flat_map List.app].
    unfold summary_records. cbn [runs flat_map List.app].
    now rewrite List.app_nil_r.
Qed.

(** A run that ends with a summary got to discovery, found files, and its
    summary is the one of its counters. *)
Lemma summary_inv (w : World) (pre : trace) (n s f : nat) (c : Z) :
  fst (run w) = pre ++ summary_records w n s f ++ [Exit c] ->
  reaches_discovery w
  /\ n = List.length (discovered w)
  /\ s + f = n
  /\ c = (if (0 <? f)%nat then 1 else 0)%Z
  /\ snd (run w) = c.
Proof.
  intros H.
  assert (Hsum : summarized (fst (run w))).
  { rewrite H. apply summarized_app. right. left. reflexivity. }
  destruct (summarized_inv w Hsum) as [Hr Hd].
  destruct (run_full w Hr Hd) as (evs & s0 & f0 & Hrun & Hadd & _ & _).
  rewrite Hrun in H. cbn [fst] in H.
  rewrite 3!app_assoc in H.
  apply summary_unique in H. destruct H as (Hn & Hs & Hf & Hc).
  subst n s f c. rewrite Hrun. cbn [snd].
  split; [assumption|]. repeat split. assumption.
Qed.

(** ** Nothing is ever taken from the trace *)

Create HintDb extends.

Lemma extends_ret {A} (a : A) : extends (ret a).
Proof. intros t. exists []. cbn. now rewrite List.app_nil_r. Qed.

Lemma extends_raise {A} (e : exn) : extends (@raise A e).
Proof. intros t. exists []. cbn. now rewrite List.app_nil_r. Qed.

Lemma extends_emit (e : event) : extends (emit e).
Proof. intros t. now exists [e]. Qed.

Lemma extends_sys_exit {A} (c : Z) : extends (@sys_exit A c).
Proof. intros t. now exists [Exit c]. Qed.

Lemma extends_bind {A B} (m : M A) (k : A -> M B) :
  extends m -> (forall a, extends (k a)) -> extends (bind m k).
Proof.
  intros Hm Hk t. destruct (Hm t) as (evs & He). unfold bind.
  destruct (m t) as [t' [a|c|e]]; cbn [fst] in *; subst t'.
  - destruct (Hk a (t ++ evs)) as (evs' & He'). exists (evs ++ evs').
    now rewrite He', app_assoc.
  - now exists evs.
  - now exists evs.
Qed.

Lemma extends_try_except {A} (m : M A) (h : exn -> option (M A)) :
  extends m -> (forall e k, h e = Some k -> extends k) ->
  extends (try_except m h).
Proof.
  intros Hm Hh t. destruct (Hm t) as (evs & He). unfold try_except.
  destruct (m t) as [t' [a|c|e]]; cbn [fst] in *; subst t'.
  - now exists evs.
  - now exists evs.
  - destruct (h e) as [k|] eqn:Hk; [|now exists evs].
    destruct (Hh e k Hk (t ++ evs)) as (evs' & He'). exists (evs ++ evs').
    now rewrite He', app_assoc.
Qed.

Lemma extends_when (b : bool) (m : M unit) : extends m -> extends (when b m).
Proof. intros H. destruct b; [assumption | apply extends_ret]. Qed.

Lemma extends_for_each {A S} (body : A -> S -> M S) (l : list A) :
  (forall x s, extends (body x s)) -> forall s, extends (for_each l body s).
Proof.
  intros Hb. induction l as [|x l IH]; intros s; cbn [for_each].
  - apply extends_ret.
  - apply extends_bind; [apply Hb | assumption].
Qed.

Lemma extends_subprocess_run (w : World) (argv : list string) :
  extends (subprocess_run w argv).
Proof.
  intros t. exists [Run argv]. unfold subprocess_run.
  destruct (tool w _ argv) as [r|e]; [destruct (returncode r =? 0)%Z|];
    reflexivity.
Qed.

#[local] Hint Resolve extends_ret extends_raise extends_emit extends_sys_exit
  extends_when extends_subprocess_run : extends.

Ltac extends_step :=
  first [ apply extends_bind; [|intros ?]
        | apply extends_try_except; [|intros ? ? ?]
        | apply extends_for_each; intros ? ?
        | apply extends_when
        | progress auto with extends ].

Lemma extends_check_ffmpeg (w : World) : extends (check_ffmpeg w).
Proof.
  unfold check_ffmpeg, logger_info, logger_error.
  repeat extends_step.
  match goal with H : _ = Some _ |- _ => destruct e; inversion H; subst end;
    repeat extends_step.
Qed.

Lemma extends_convert (w : World) (i o : path) :
  extends (convert_mp4_to_apng w i o).
Proof.
  intros t. destruct (convert_total w i o t) as (evs & b & H & _).
  exists evs. now rewrite H.
Qed.

Lemma extends_main (w : World) : extends (main w).
Proof.
  unfold main, is_dir, glob, path_mkdir, loop_body,
    logger_info, logger_error, logger_warning.
  repeat first
    [ apply extends_check_ffmpeg
    | apply extends_convert
    | extends_step
    | match goal with
      | |- extends (match ?x with _ => _ end) => destruct x
      | H : (if ?b then _ else _) = Some _ |- _ =>
          destruct b; inversion H; subst
      end ].
Qed.

(** * The claims *)

(** C1.  The exit status of a run.  A run that ends with the summary exits
    with 0 when the failure counter it reports is 0 and with 1 otherwise; a
    run that gets to discovery and finds no file exits with 0; a run in
    which the tool is unavailable, the source directory is missing or the
    export directory cannot be made exits with 1. *)
Theorem exit_status_of_run (w : World) :
  (forall pre n s f c,
      fst (run w) = pre ++ summary_records w n s f ++ [Exit c] ->
      snd (run w) = c /\ c = (if Nat.eqb f 0 then 0 else 1)%Z)
  /\ (reaches_discovery w -> discovered w = [] -> snd (run w) = 0%Z)
  /\ (tool_unavailable w \/ ~ source_present w \/ export_fails w ->
      snd (run w) = 1%Z).
Proof.
  split; [|split].
  - intros pre n s f c H.
    destruct (summary_inv w pre n s f c H) as (_ & _ & _ & Hc & Hs).
    split; [assumption|]. rewrite Hc. now destruct f.
  - intros Hr Hd. now rewrite (run_no_files w Hr Hd).
  - intros Hf. destruct (run_cases w) as [Hr | [Hc _]]; [|assumption].
    now apply fatal_stops in Hf.
Qed.

Lemma exit_status_of_run_witness :
  snd (run Sample.world) = 1%Z
  /\ snd (run Sample.empty) = 0%Z
  /\ snd (run Sample.no_tool) = 1%Z
  /\ snd (run Sample.no_source) = 1%Z.
Proof.
  split; [|split; [|split]].
  - refine (proj1 (proj1 (exit_status_of_run Sample.world)
                     (firstn 36 (fst (run Sample.world))) 3 2 1 1%Z _)).
    vm_compute. reflexivity.
  - apply (proj1 (proj2 (exit_status_of_run Sample.empty))).
    + repeat split; first [reflexivity | right; reflexivity
                          | eexists; split; reflexivity].
    + reflexivity.
  - apply (proj2 (proj2 (exit_status_of_run Sample.no_tool))).
    left. left. eexists. reflexivity.
  - apply (proj2 (proj2 (exit_status_of_run Sample.no_source))).
    right. left. unfold source_present. vm_compute. discriminate.
Defined.

(** C2.  The two counters add up to the number of files discovered.  A run
    that gets to the summary ends with the summary of its counters; in every
    run that ends with a summary, the total reported is the number of files
    discovered and the two counters reported add up to it; and one turn of
    the loop adds one to exactly one of the two counters. *)
Theorem counters_add_up (w : World) :
  (summarized (fst (run w)) ->
   exists pre s f c,
     fst (run w)
     = pre ++ summary_records w (List.length (discovered w)) s f ++ [Exit c])
  /\ (forall pre n s f c,
        fst (run w) = pre ++ summary_records w n s f ++ [Exit c] ->
        n = List.length (discovered w) /\ s + f = n)
  /\ (forall p s f t,
        exists t',
          loop_body w p (s, f) t = (t', Ret (s + 1, f))
          \/ loop_body w p (s, f) t = (t', Ret (s, f + 1))).
Proof.
  split; [|split].
  - intros H. destruct (summarized_inv w H) as [Hr Hd].
    destruct (run_full w Hr Hd) as (evs & s & f & Hrun & _).
    rewrite Hrun. cbn [fst].
    eexists; exists s, f; eexists. rewrite 3!app_assoc. reflexivity.
  - intros pre n s f c H.
    destruct (summary_inv w pre n s f c H) as (_ & Hn & Hadd & _).
    now split.
  - intros p s f t.
    destruct (convert_total w p (apng_file_path w p) t) as (evs & b & Hc & _).
    exists (t ++ evs). unfold loop_body. rewrite (bind_Ret _ _ _ _ _ Hc).
    destruct b; [now left | now right].
Qed.

Lemma counters_add_up_witness :
  3 = List.length (discovered Sample.world) /\ 2 + 1 = 3.
Proof.
  refine (proj1 (proj2 (counters_add_up Sample.world))
            (firstn 36 (fst (run Sample.world))) 3 2 1 1%Z _).
  vm_compute. reflexivity.
Defined.

(** C3.  A failed conversion stops nothing, and no file is tried twice.
    Whatever the child process does (it cannot be started, it ends with a
    status other than 0, [subprocess.run] raises anything else), a
    conversion completes with a boolean after starting one process; a run
    that gets to discovery starts, after the check, exactly one process for
    each file discovered, in the order of discovery; and when files were
    found it gets to the summary. *)
Theorem every_file_attempted_once (w : World) :
  (forall i o t,
      exists evs b,
        convert_mp4_to_apng w i o t = (t ++ evs, Ret b)
        /\ runs evs = [command i o])
  /\ (forall i o t e,
        tool w (List.length (runs t)) (command i o) = Failed e ->
        snd (convert_mp4_to_apng w i o t) = Ret false)
  /\ (forall i o t r,
        tool w (List.length (runs t)) (command i o) = Ran r ->
        returncode r <> 0%Z ->
        snd (convert_mp4_to_apng w i o t) = Ret false)
  /\ (reaches_discovery w ->
      runs (fst (run w))
      = version_cmd
          :: map (fun p => command p (apng_file_path w p)) (discovered w))
  /\ (reaches_discovery w -> discovered w <> [] -> summarized (fst (run w))).
Proof.
  split; [|split; [|split; [|split]]].
  - intros i o t.
    destruct (convert_total w i o t) as (evs & b & H & Hr & _).
    now exists evs, b.
  - intros i o t e H.
    unfold convert_mp4_to_apng, subprocess_run. run_monad.
    rewrite !runs_app. cbn [runs flat_map]. rewrite !List.app_nil_r, H.
    now destruct e.
  - intros i o t r H Hz.
    unfold convert_mp4_to_apng, subprocess_run. run_monad.
    rewrite !runs_app. cbn [runs flat_map]. rewrite !List.app_nil_r, H.
    apply Z.eqb_neq in Hz. now rewrite Hz.
  - apply runs_of_run.
  - intros Hr Hd.
    destruct (run_full w Hr Hd) as (evs & s & f & Hrun & _).
    rewrite Hrun. cbn [fst]. unfold summarized.
    rewrite !in_app_iff. do 4 right. left. left. reflexivity.
Qed.

Lemma every_file_attempted_once_witness :
  runs (fst (run Sample.world))
  = [ version_cmd;
      command ["opt"; "app"; "mp4"; "clip_a.mp4"] ["opt"; "app"; "export"; "clip_a.apng"];
      command ["opt"; "app"; "mp4"; "clip_b.mp4"] ["opt"; "app"; "export"; "clip_b.apng"];
      command ["opt"; "app"; "mp4"; "takes.mp4"] ["opt"; "app"; "export"; "takes.apng"] ]
  /\ summarized (fst (run Sample.world))
  /\ snd (convert_mp4_to_apng Sample.no_tool ["a.mp4"] ["a.apng"] []) = Ret false
  /\ snd (convert_mp4_to_apng Sample.world ["clip_b.mp4"] ["clip_b.apng"]
            [Run version_cmd; Run version_cmd]) = Ret false.
Proof.
  assert (Hr : reaches_discovery Sample.world).
  { repeat split; first [reflexivity | right; reflexivity
                        | eexists; split; reflexivity]. }
  split; [|split; [|split]].
  - apply (proj1 (proj2 (proj2 (proj2 (every_file_attempted_once Sample.world)))) Hr).
  - apply (proj2 (proj2 (proj2 (proj2 (every_file_attempted_once Sample.world)))) Hr).
    vm_compute. discriminate.
  - eapply (proj1 (proj2 (every_file_attempted_once Sample.no_tool))).
    reflexivity.
  - eapply (proj1 (proj2 (proj2 (every_file_attempted_once Sample.world)))).
    + reflexivity.
    + vm_compute. discriminate.
Defined.

(** C4.  The command of one conversion is, in this order: the name of the
    tool, the input flag and the input path, the seven fixed options (frame
    rate 15, width 320 with the height left to the tool, lanczos
    resampling; endless looping; the apng format forced; overwriting without
    a question), and the output path last.  It is the command of the one
    process a conversion starts. *)
Theorem command_is_fixed (i o : path) :
  command i o
  = [ "ffmpeg"; "-i"; Path.str i;
      "-vf"; "fps=15,scale=320:-1:flags=lanczos";
      "-plays"; "0"; "-f"; "apng"; "-y";
      Path.str o ]%string
  /\ last (command i o) EmptyString = Path.str o
  /\ forall w t,
       runs (fst (convert_mp4_to_apng w i o t))
       = runs t ++ [ [ "ffmpeg"; "-i"; Path.str i;
                       "-vf"; "fps=15,scale=320:-1:flags=lanczos";
                       "-plays"; "0"; "-f"; "apng"; "-y";
                       Path.str o ]%string ].
Proof.
  split; [reflexivity|]. split; [reflexivity|].
  intros w t.
  destruct (convert_total w i o t) as (evs & b & H & Hr & _).
  rewrite H. cbn [fst]. rewrite runs_app, Hr. reflexivity.
Qed.

(** C5, as stated, fails: with the tool missing the run does exit with
    status 1, but before the check it has opened, so created or truncated,
    the log file, and it writes its records there. *)
Lemma log_written_before_check :
  tool_unavailable Sample.no_tool
  /\ snd (run Sample.no_tool) = 1%Z
  /\ hd_error (fst (run Sample.no_tool))
     = Some (OpenLog ["home"; "u"; "conversion.log"])
  /\ ~ untouched (fst (run Sample.no_tool)).
Proof.
  split; [left; eexists; reflexivity|].
  split; [reflexivity|]. split; [reflexivity|].
  intros H. inversion H as [|e t He _]. discriminate He.
Qed.

(** C5, amended.  When the check of the tool fails, the run exits with
    status 1 and makes no directory (it tests none and lists none either,
    and starts no process but the check).  What it writes is the log file
    [conversion.log]: opening it for writing, when the module is loaded, is
    the first effect of the run, before the check; every later write is a
    record sent to it. *)
Theorem tool_unavailable_aborts (w : World) :
  tool_unavailable w ->
  snd (run w) = 1%Z
  /\ (exists p rest,
        fst (run w) = OpenLog p :: rest
        /\ Path.name p = "conversion.log"%string
        /\ (forall e, In e rest -> fs_write e = true ->
              exists lvl m, e = Log lvl m)
        /\ (log_open w = None -> In (Run version_cmd) rest))
  /\ (forall p, ~ In (Mkdir p) (fst (run w)))
  /\ (forall p, ~ In (IsDir p) (fst (run w)))
  /\ (forall p pat, ~ In (Glob p pat) (fst (run w)))
  /\ (forall argv, In argv (runs (fst (run w))) -> argv = version_cmd).
Proof.
  intros Hu.
  assert (Hshape :
    (run w = (opened w, 1%Z) /\ log_open w <> None)
    \/ exists m, run w = (opened w ++ checking ++ [Log ERROR m; Exit 1], 1%Z)).
  { destruct (log_open w) as [s|] eqn:Hlog.
    - left. split; [apply (run_log_fails w s Hlog) | discriminate].
    - right. destruct (main_tool_unavailable w _ (runs_opened w) Hu) as (m & Hm).
      exists m. now rewrite (run_main w Hlog), Hm. }
  destruct Hshape as [[H Hlog] | (m & H)]; rewrite H; cbn [fst snd];
    unfold opened, checking; cbn [List.app runs flat_map];
    (split; [reflexivity|]); (split; [|split; [|split; [|split]]]).
  - exists (cwd w // LOG_FILE), []. split; [reflexivity|].
    split; [apply name_div|]. split; [intros e []|].
    intros Hn. contradiction.
  - intros p. cbn. intuition discriminate.
  - intros p. cbn. intuition discriminate.
  - intros p pat. cbn. intuition discriminate.
  - intros argv [].
  - eexists (cwd w // LOG_FILE), _. split; [reflexivity|].
    split; [apply name_div|]. split.
    + intros e Hin Hw. cbn in Hin.
      repeat (destruct Hin as [<- | Hin]; [try discriminate Hw; eauto|]).
      destruct Hin.
    + intros _. cbn. tauto.
  - intros p. cbn. intuition discriminate.
  - intros p. cbn. intuition discriminate.
  - intros p pat. cbn. intuition discriminate.
  - intros argv [<- | []]. reflexivity.
Qed.

Lemma tool_unavailable_aborts_witness :
  snd (run Sample.no_tool) = 1%Z
  /\ (exists p rest,
        fst (run Sample.no_tool) = OpenLog p :: rest
        /\ Path.name p = "conversion.log"%string
        /\ (forall e, In e rest -> fs_write e = true ->
              exists lvl m, e = Log lvl m)
        /\ (log_open Sample.no_tool = None -> In (Run version_cmd) rest))
  /\ (forall p, ~ In (Mkdir p) (fst (run Sample.no_tool))).
Proof.
  assert (Hu : tool_unavailable Sample.no_tool)
    by (left; eexists; reflexivity).
  split; [|split].
  - apply (proj1 (tool_unavailable_aborts Sample.no_tool Hu)).
  - apply (proj1 (proj2 (tool_unavailable_aborts Sample.no_tool Hu))).
  - apply (proj1 (proj2 (proj2 (tool_unavailable_aborts Sample.no_tool Hu)))).
Defined.

(** C6, as stated, fails: a run that finds no file writes no summary, so
    nothing reports a total of 0. *)
Lemma no_summary_without_files :
  source_present Sample.empty
  /\ discovered Sample.empty = []
  /\ snd (run Sample.empty) = 0%Z
  /\ ~ reports_total (fst (run Sample.empty)) 0.
Proof.
  split; [reflexivity|]. split; [reflexivity|]. split; [reflexivity|].
  unfold reports_total. vm_compute. intuition discriminate.
Qed.

(** C6, amended.  A run that gets to discovery and finds no file logs a
    warning, starts no conversion, writes no summary (no record reports a
    total) and exits with status 0. *)
Theorem nothing_to_convert (w : World) :
  reaches_discovery w -> discovered w = [] ->
  snd (run w) = 0%Z
  /\ In (Log WARNING ("No MP4 files found in '" ++ Path.str (source_dir w)
                        ++ "'. Nothing to convert.")%string) (fst (run w))
  /\ runs (fst (run w)) = [version_cmd]
  /\ ~ summarized (fst (run w))
  /\ (forall n, ~ reports_total (fst (run w)) n)
  /\ last (fst (run w)) (Exit 1) = Exit 0.
Proof.
  intros Hr Hd. rewrite (run_no_files w Hr Hd). cbn [fst snd].
  split; [reflexivity|]. split; [|split; [|split; [|split]]].
  - rewrite !in_app_iff. right. right. left. reflexivity.
  - rewrite app_assoc, runs_app, runs_preparing. reflexivity.
  - apply nothing_to_do_quiet.
  - intros n. unfold reports_total, preparing.
    destruct (Fs.is_dir (root w) (export_dir w));
      unfold opened, resolving, checking, creating, nothing_to_do;
      rewrite ?in_app_iff; cbn; intuition discriminate.
  - rewrite !app_assoc. unfold nothing_to_do.
    change [Log WARNING ("No MP4 files found in '" ++ Path.str (source_dir w)
                           ++ "'. Nothing to convert.")%string;
            Log INFO "--- Conversion Script Finished (No Files) ---"; Exit 0]
      with ([Log WARNING ("No MP4 files found in '" ++ Path.str (source_dir w)
                            ++ "'. Nothing to convert.")%string;
             Log INFO "--- Conversion Script Finished (No Files) ---"] ++ [Exit 0]).
    rewrite app_assoc. apply last_last.
Qed.

Lemma nothing_to_convert_witness :
  snd (run Sample.empty) = 0%Z /\ runs (fst (run Sample.empty)) = [version_cmd].
Proof.
  assert (Hr : reaches_discovery Sample.empty).
  { repeat split; first [reflexivity | right; reflexivity
                        | eexists; split; reflexivity]. }
  assert (Hd : discovered Sample.empty = []) by reflexivity.
  split.
  - apply (proj1 (nothing_to_convert Sample.empty Hr Hd)).
  - apply (proj1 (proj2 (proj2 (nothing_to_convert Sample.empty Hr Hd)))).
Defined.

(** C7.  Where the script is started from has no effect on [main], which
    resolves the source and the export directory against the directory of
    the script; but the log file, a relative name given to the handler, is
    opened in the current directory, while the summary names the directory
    of the script: started from [/home/u] and from [/tmp], the same
    environment gives two different traces. *)
Theorem log_file_follows_cwd :
  (forall w c t, main (with_cwd c w) t = main w t)
  /\ (forall w c, source_dir (with_cwd c w) = source_dir w
                  /\ export_dir (with_cwd c w) = export_dir w)
  /\ fst (run Sample.world) <> fst (run (with_cwd ["tmp"] Sample.world))
  /\ hd_error (fst (run Sample.world))
     = Some (OpenLog ["home"; "u"; "conversion.log"])
  /\ hd_error (fst (run (with_cwd ["tmp"] Sample.world)))
     = Some (OpenLog ["tmp"; "conversion.log"])
  /\ In (Log INFO "Log file saved to: /opt/app/conversion.log")
        (fst (run Sample.world))
  /\ In (Log INFO "Log file saved to: /opt/app/conversion.log")
        (fst (run (with_cwd ["tmp"] Sample.world))).
Proof.
  split; [reflexivity|]. split; [now split|].
  split; [vm_compute; discriminate|].
  split; [reflexivity|]. split; [reflexivity|].
  split; vm_compute; intuition.
Qed.

(** C8.  The output of a discovered file [s.mp4] is the export directory
    joined with [s.apng] (with [.mp4.apng] for the file named [.mp4], whose
    name pathlib takes to have no suffix); it is the last argument of the
    command of the file, a command the run starts when it gets to discovery;
    and it depends on nothing but the place of the script and the input
    path. *)
Theorem output_path_derivation (w : World) (p : path) :
  In p (discovered w) ->
  (exists s,
      p = source_dir w // (s ++ ".mp4")%string
      /\ apng_file_path w p
         = export_dir w
             // ((match s with EmptyString => ".mp4" | _ => s end) ++ ".apng")%string)
  /\ apng_file_path w p = export_dir w // (Path.stem p ++ ".apng")%string
  /\ last (command p (apng_file_path w p)) EmptyString
     = Path.str (apng_file_path w p)
  /\ (reaches_discovery w ->
      In (command p (apng_file_path w p)) (runs (fst (run w))))
  /\ (forall w', script_file w' = script_file w ->
                 apng_file_path w' p = apng_file_path w p).
Proof.
  intros Hin. split; [|split; [|split; [|split]]].
  - destruct (discovered_shape w p Hin) as (s & ->). exists s.
    split; [reflexivity|]. unfold apng_file_path. now rewrite stem_mp4.
  - reflexivity.
  - reflexivity.
  - intros Hr. rewrite (runs_of_run w Hr). right.
    apply in_map_iff. now exists p.
  - intros w' H. unfold apng_file_path, export_dir, base_dir. now rewrite H.
Qed.

Lemma output_path_derivation_witness :
  apng_file_path Sample.world ["opt"; "app"; "mp4"; "clip_a.mp4"]
  = ["opt"; "app"; "export"; "clip_a.apng"].
Proof.
  assert (Hin : In ["opt"; "app"; "mp4"; "clip_a.mp4"] (discovered Sample.world))
    by (left; reflexivity).
  exact (proj1 (proj2 (output_path_derivation Sample.world _ Hin))).
Defined.

(** C9.  Discovery takes every entry of the source directory whose name
    ends in [.mp4], in the order of the directory, and only those: the name
    is all it looks at.  So a subdirectory with such a name is discovered;
    and in a run that gets to discovery it is handed to the converter and
    counted in the total of the summary, which the two counters add up to. *)
Theorem discovery_by_name_only (w : World) (es : list (string * node)) :
  Fs.lookup (root w) (source_dir w) = Some (Dir es) ->
  discovered w
  = map (fun e => source_dir w // fst e)
        (filter (fun e => Str.fnmatch "*.mp4" (fst e)) es)
  /\ (forall p,
        In p (discovered w) <->
        exists nm nd s,
          In (nm, nd) es /\ nm = (s ++ ".mp4")%string /\ p = source_dir w // nm)
  /\ (forall nm sub s,
        In (nm, Dir sub) es -> nm = (s ++ ".mp4")%string ->
        In (source_dir w // nm) (discovered w)
        /\ (reaches_discovery w ->
            In (command (source_dir w // nm)
                        (apng_file_path w (source_dir w // nm)))
               (runs (fst (run w)))
            /\ exists pre sc fc c,
                 fst (run w)
                 = pre ++ summary_records w (List.length (discovered w)) sc fc
                       ++ [Exit c]
                 /\ sc + fc = List.length (discovered w))).
Proof.
  intros Hes. split; [|split].
  - unfold discovered. now apply glob_entries.
  - intros p. now apply discovered_iff.
  - intros nm sub s Hin Hnm.
    assert (Hd : In (source_dir w // nm) (discovered w)).
    { apply (discovered_iff w es _ Hes). now exists nm, (Dir sub), s. }
    split; [assumption|]. intros Hr. split.
    + rewrite (runs_of_run w Hr). right. apply in_map_iff.
      now exists (source_dir w // nm).
    + assert (Hne : discovered w <> []) by (intros E; now rewrite E in Hd).
      destruct (run_full w Hr Hne) as (evs & sc & fc & Hrun & Hadd & _).
      rewrite Hrun. cbn [fst].
      eexists; exists sc, fc; eexists. rewrite 3!app_assoc.
      split; [reflexivity | assumption].
Qed.

Lemma discovery_by_name_only_witness :
  discovered Sample.world
  = [ ["opt"; "app"; "mp4"; "clip_a.mp4"];
      ["opt"; "app"; "mp4"; "clip_b.mp4"];
      ["opt"; "app"; "mp4"; "takes.mp4"] ]
  /\ In ["opt"; "app"; "mp4"; "takes.mp4"] (discovered Sample.world).
Proof.
  assert (Hes : Fs.lookup (root Sample.world) (source_dir Sample.world)
                = Some (Dir Sample.entries)) by reflexivity.
  split.
  - exact (proj1 (discovery_by_name_only Sample.world Sample.entries Hes)).
  - refine (proj1 (proj2 (proj2 (discovery_by_name_only Sample.world
                                   Sample.entries Hes))
                     "takes.mp4"%string [("inner.mp4"%string, File)]
                     "takes"%string _ _)).
    + do 4 right. left. reflexivity.
    + reflexivity.
Defined.

(** C10.  The first effect of every run, before the check of the tool and
    before any test of a directory, is to open [conversion.log] for writing
    in the current directory; the summary, when there is one, gives the
    place of the log file as the directory of the script joined with that
    name; and the two paths differ whenever the current directory is not
    the directory of the script. *)
Theorem log_file_location (w : World) :
  (exists rest,
      fst (run w) = OpenLog (cwd w // "conversion.log"%string) :: rest)
  /\ (summarized (fst (run w)) ->
      In (Log INFO ("Log file saved to: "
                      ++ Path.str (Path.parent (script_file w)
                                     // "conversion.log"))%string)
         (fst (run w)))
  /\ (cwd w <> Path.parent (script_file w) ->
      cwd w // "conversion.log"%string
      <> Path.parent (script_file w) // "conversion.log"%string).
Proof.
  split; [|split].
  - destruct (log_open w) as [s|] eqn:Hlog.
    + rewrite (run_log_fails w s Hlog). now exists [].
    + rewrite (run_main w Hlog). cbn [fst].
      destruct (extends_main w (opened w)) as (evs & He).
      exists evs. exact He.
  - intros H. destruct (summarized_inv w H) as [Hr Hd].
    destruct (run_full w Hr Hd) as (evs & s & f & Hrun & _).
    rewrite Hrun. cbn [fst]. unfold summary_records.
    rewrite !in_app_iff. do 4 right. left. do 4 right. left. reflexivity.
  - intros Hne H. apply Hne. unfold Path.div in H.
    now apply app_inv_tail in H.
Qed.

Lemma log_file_location_witness :
  In (Log INFO "Log file saved to: /opt/app/conversion.log")
     (fst (run Sample.world))
  /\ ["home"; "u"; "conversion.log"] <> ["opt"; "app"; "conversion.log"].
Proof.
  split.
  - apply (proj1 (proj2 (log_file_location Sample.world))).
    vm_compute. intuition.
  - apply (proj2 (proj2 (log_file_location Sample.world))).
    vm_compute. discriminate.
Defined.

(** * More about the code *)

(** ** What the check and a conversion answer *)

(** The index of the process a conversion starts: the four records it logs
    first start nothing. *)
Lemma convert_index (w : World) (i o : path) (t : trace) :
  convert_mp4_to_apng w i o t
  = match tool w (List.length (runs t)) (command i o) with
    | Ran r =>
        if (returncode r =? 0)%Z
        then (fst (convert_mp4_to_apng w i o t), Ret true)
        else (fst (convert_mp4_to_apng w i o t), Ret false)
    | Failed _ => (fst (convert_mp4_to_apng w i o t), Ret false)
    end.
Proof.
  unfold convert_mp4_to_apng, subprocess_run. run_monad.
  rewrite !runs_app. cbn [runs flat_map]. rewrite !List.app_nil_r.
  destruct (tool w _ _) as [r | e].
  - now destruct (returncode r =? 0)%Z.
  - now destruct e.
Qed.

(** A conversion answers whether its process ended with status 0. *)
Lemma convert_result (w : World) (i o : path) (t : trace) :
  exists evs,
    convert_mp4_to_apng w i o t
    = (t ++ evs, Ret (succeeded w (List.length (runs t)) (command i o)))
    /\ runs evs = [command i o]
    /\ Forall loop_event evs.
Proof.
  destruct (convert_total w i o t) as (evs & b & H & Hr & Hl).
  exists evs. split; [|now split].
  rewrite convert_index, H. cbn [fst]. unfold succeeded.
  destruct (tool w _ _) as [r | e]; [|reflexivity].
  now destruct (returncode r =? 0)%Z.
Qed.

(** The loop counts the conversions that succeed. *)
Lemma loop_counts (w : World) (files : list path) :
  forall (t : trace) (s f : nat),
  exists evs,
    for_each files (loop_body w) (s, f) t
    = (t ++ evs,
       Ret (s + successes w (List.length (runs t)) files,
            f + (List.length files - successes w (List.length (runs t)) files)))
    /\ runs evs = map (fun p => command p (apng_file_path w p)) files
    /\ Forall loop_event evs
    /\ successes w (List.length (runs t)) files <= List.length files.
Proof.
  induction files as [|p files IH]; intros t s f.
  - exists []. cbn. rewrite List.app_nil_r, !Nat.add_0_r.
    repeat split; constructor.
  - destruct (convert_result w p (apng_file_path w p) t) as (evs1 & Hc & Hr1 & Hl1).
    set (k := List.length (runs t)) in *.
    assert (Hk : List.length (runs (t ++ evs1)) = S k).
    { rewrite runs_app, Hr1, length_app. cbn. subst k. lia. }
    assert (Hbody :
      loop_body w p (s, f) t
      = (t ++ evs1,
         Ret (if succeeded w k (command p (apng_file_path w p))
              then (s + 1, f) else (s, f + 1)))).
    { unfold loop_body. rewrite (bind_Ret _ _ _ _ _ Hc).
      now destruct (succeeded w k _). }
    cbn [for_each successes List.length]. rewrite (bind_Ret _ _ _ _ _ Hbody).
    destruct (succeeded w k (command p (apng_file_path w p))).
    + destruct (IH (t ++ evs1) (s + 1) f) as (evs2 & Hl & Hr2 & Hl2 & Hle).
      rewrite Hk in Hl, Hle. exists (evs1 ++ evs2). rewrite Hl, app_assoc.
      split; [f_equal; f_equal; f_equal; lia|].
      split; [rewrite runs_app, Hr1, Hr2; reflexivity|].
      split; [apply Forall_app; now split | lia].
    + destruct (IH (t ++ evs1) s (f + 1)) as (evs2 & Hl & Hr2 & Hl2 & Hle).
      rewrite Hk in Hl, Hle. exists (evs1 ++ evs2). rewrite Hl, app_assoc.
      split; [f_equal; f_equal; f_equal; lia|].
      split; [rewrite runs_app, Hr1, Hr2; reflexivity|].
      split; [apply Forall_app; now split | lia].
Qed.

(** [main] when files are found, with the counters the summary reports. *)
Lemma main_counts (w : World) (t : trace) :
  runs t = [] -> tool_available w -> source_present w -> export_ready w ->
  discovered w <> [] ->
  exists evs,
    main w t =
      (t ++ preparing w
         ++ [Log INFO ("Found " ++ Str.of_nat (List.length (discovered w))
                         ++ " MP4 file(s) to process.")%string]
         ++ evs
         ++ summary_records w (List.length (discovered w))
              (successes w 1 (discovered w))
              (List.length (discovered w) - successes w 1 (discovered w))
         ++ [Exit (if (0 <? List.length (discovered w)
                            - successes w 1 (discovered w))%nat
                   then 1 else 0)%Z],
       Exited (if (0 <? List.length (discovered w)
                        - successes w 1 (discovered w))%nat
               then 1 else 0)%Z)
    /\ runs evs = map (fun p => command p (apng_file_path w p)) (discovered w)
    /\ Forall loop_event evs
    /\ successes w 1 (discovered w) <= List.length (discovered w).
Proof.
  intros Ht Ha Hs He Hd. enter_main Ht.
  rewrite (check_ffmpeg_available w _ Hidx Ha).
  unfold source_present in Hs. unfold discovered in *.
  unfold preparing, resolving, checking, creating, summary_records.
  run_monad. rewrite Hs. run_monad.
  destruct (Fs.glob (root w) (source_dir w) "*.mp4") as [|p ps] eqn:Hg;
    [congruence|].
  destruct (export_ready_cases w He) as [Hexp | [Hexp Hm]]; rewrite Hexp;
    run_monad; rewrite ?Hm; run_monad;
    match goal with
    | |- context [for_each _ _ _ ?T] =>
        destruct (loop_counts w (p :: ps) T 0 0) as (evs & H1 & H2 & H3 & H4);
        assert (Hlen : List.length (runs T) = 1)
          by (rewrite !runs_app, Ht; reflexivity)
    end;
    rewrite Hlen in H1, H4; rewrite H1; exists evs;
    (split; [|repeat split; assumption]);
    cbn [Nat.add];
    destruct (0 <? _)%nat; flatten_trace; reflexivity.
Qed.

(** The whole run when files are found, with its counters. *)
Lemma run_counts (w : World) :
  reaches_discovery w -> discovered w <> [] ->
  exists pre,
    fst (run w)
    = pre ++ summary_records w (List.length (discovered w))
               (successes w 1 (discovered w))
               (List.length (discovered w) - successes w 1 (discovered w))
          ++ [Exit (snd (run w))]
    /\ snd (run w)
       = (if (0 <? List.length (discovered w) - successes w 1 (discovered w))%nat
          then 1 else 0)%Z
    /\ successes w 1 (discovered w) <= List.length (discovered w).
Proof.
  intros (Hlog & Ha & Hs & He) Hd.
  destruct (main_counts w _ (runs_opened w) Ha Hs He Hd)
    as (evs & Hm & _ & _ & Hle).
  rewrite (run_main w Hlog), Hm. cbn [fst snd exit_status].
  eexists. rewrite 3!app_assoc. now repeat split.
Qed.

(** X1.  [check_ffmpeg] answers [True] exactly when the version process
    ran and ended with status 0; it lets an exception through exactly when
    [subprocess.run] raised something that is neither [FileNotFoundError]
    nor [CalledProcessError]; it never exits; and it starts one process,
    the version invocation. *)
Theorem check_ffmpeg_verdict (w : World) (t : trace) :
  (snd (check_ffmpeg w t) = Ret true <->
   exists r, tool w (List.length (runs t)) version_cmd = Ran r
             /\ returncode r = 0%Z)
  /\ (forall e,
        snd (check_ffmpeg w t) = Raised e <->
        tool w (List.length (runs t)) version_cmd = Failed e
        /\ exists s, e = OSError s \/ e = OtherException s)
  /\ (forall c, snd (check_ffmpeg w t) <> Exited c)
  /\ runs (fst (check_ffmpeg w t)) = runs t ++ [version_cmd].
Proof.
  unfold check_ffmpeg, subprocess_run. run_monad.
  rewrite !runs_app. cbn [runs flat_map]. rewrite !List.app_nil_r.
  fold version_cmd.
  destruct (tool w (List.length (runs t)) version_cmd) as [r | e].
  - destruct (Z.eqb_spec (returncode r) 0) as [Hz | Hz]; cbn [fst snd].
    + split; [|split; [|split]].
      * split; [intros _; now exists r | reflexivity].
      * intros e. split; [discriminate | intros [H _]; discriminate].
      * discriminate.
      * rewrite !runs_app. cbn [runs flat_map]. now rewrite !List.app_nil_r.
    + split; [|split; [|split]].
      * split; [discriminate|]. intros (r' & Hr & Hz'). congruence.
      * intros e. split; [discriminate | intros [H _]; discriminate].
      * discriminate.
      * rewrite !runs_app. cbn [runs flat_map]. now rewrite !List.app_nil_r.
  - destruct e as [s | s | rc err s | s]; cbn [fst snd];
      (split; [|split; [|split]]);
      try discriminate;
      try (rewrite !runs_app; cbn [runs flat_map]; now rewrite !List.app_nil_r);
      try (split; [discriminate | intros (r' & Hr & _); discriminate]).
    + intros e. split; [discriminate|].
      intros [H (s' & [-> | ->])]; discriminate.
    + intros e. split.
      * intros H. injection H as <-. split; [reflexivity|]. exists s. now left.
      * intros [H _]. now injection H as <-.
    + intros e. split; [discriminate|].
      intros [H (s' & [-> | ->])]; discriminate.
    + intros e. split.
      * intros H. injection H as <-. split; [reflexivity|]. exists s. now right.
      * intros [H _]. now injection H as <-.
Qed.

Lemma check_ffmpeg_verdict_witness :
  snd (check_ffmpeg Sample.world []) = Ret true
  /\ snd (check_ffmpeg Cases.not_executable [])
     = Raised (OSError "[Errno 13] Permission denied: 'ffmpeg'").
Proof.
  split.
  - apply (proj1 (check_ffmpeg_verdict Sample.world [])).
    eexists. split; reflexivity.
  - apply (proj1 (proj2 (check_ffmpeg_verdict Cases.not_executable []))).
    split; [reflexivity|]. eexists. left. reflexivity.
Defined.

(** X2.  When the version invocation raises an error the check has no
    clause for (the tool is there but may not be executed, say), nothing is
    reported: the run stops right after the invocation, without an error
    record and without [sys.exit], and the interpreter ends with status 1. *)
Theorem unexpected_check_error_escapes (w : World) (e : exn) :
  log_open w = None ->
  tool w 0 version_cmd = Failed e ->
  (exists s, e = OSError s \/ e = OtherException s) ->
  run w = (opened w ++ checking, 1%Z)
  /\ (forall m, ~ In (Log ERROR m) (fst (run w)))
  /\ (forall c, ~ In (Exit c) (fst (run w))).
Proof.
  intros Hlog Htool He.
  assert (Hrun : run w = (opened w ++ checking, 1%Z)).
  { rewrite (run_main w Hlog).
    assert (Hc : check_ffmpeg w (opened w ++
                   [Log INFO "--- MP4 to APNG Conversion Script Started ---"])
                 = (opened w ++ checking, Raised e)).
    { unfold check_ffmpeg, subprocess_run. run_monad. cbn [runs flat_map List.app List.length opened].
      fold version_cmd. rewrite Htool.
      destruct He as (s & [-> | ->]); reflexivity. }
    now rewrite (main_check_raised w _ _ _ Hc). }
  rewrite Hrun. cbn [fst].
  split; [reflexivity|].
  split; intros x; unfold opened, checking; cbn; intuition discriminate.
Qed.

Lemma unexpected_check_error_escapes_witness :
  run Cases.not_executable
  = ([ OpenLog ["home"; "u"; "conversion.log"];
       Log INFO "--- MP4 to APNG Conversion Script Started ---";
       Log INFO "Checking for ffmpeg executable...";
       Run ["ffmpeg"; "-version"] ], 1%Z).
Proof.
  refine (proj1 (unexpected_check_error_escapes Cases.not_executable
                   (OSError "[Errno 13] Permission denied: 'ffmpeg'") _ _ _)).
  - reflexivity.
  - reflexivity.
  - eexists. left. reflexivity.
Defined.

(** X3.  [convert_mp4_to_apng] answers [True] exactly when
    [subprocess.run] comes back, with a completed process of status 0, and
    [False] in every other case: when the child ends with another status,
    and whenever [subprocess.run] raises, be it after a child that exited
    with 0 (with [text=True] it raises on output it cannot decode). *)
Theorem convert_verdict (w : World) (i o : path) (t : trace) :
  (snd (convert_mp4_to_apng w i o t) = Ret true <->
   exists r, tool w (List.length (runs t)) (command i o) = Ran r
             /\ returncode r = 0%Z)
  /\ (snd (convert_mp4_to_apng w i o t) = Ret false <->
      ~ exists r, tool w (List.length (runs t)) (command i o) = Ran r
                  /\ returncode r = 0%Z)
  /\ (forall e,
        tool w (List.length (runs t)) (command i o) = Failed e ->
        snd (convert_mp4_to_apng w i o t) = Ret false).
Proof.
  destruct (convert_result w i o t) as (evs & H & _).
  rewrite H. cbn [snd]. unfold succeeded.
  destruct (tool w _ _) as [r | e].
  - destruct (Z.eqb_spec (returncode r) 0) as [Hz | Hz].
    + split; [|split]; [split | split | discriminate]; try discriminate.
      * intros _. now exists r.
      * reflexivity.
      * intros Hn. exfalso. apply Hn. now exists r.
    + split; [|split]; [split | split | discriminate]; try discriminate.
      * intros (r' & Hr & Hz'). congruence.
      * intros _ (r' & Hr & Hz'). congruence.
      * reflexivity.
  - split; [|split]; [split | split | reflexivity]; try discriminate.
    + intros (r' & Hr & _). discriminate.
    + intros _ (r' & Hr & _). discriminate.
    + reflexivity.
Qed.

Lemma convert_verdict_witness :
  snd (convert_mp4_to_apng Sample.world ["a.mp4"] ["a.apng"] []) = Ret true
  /\ snd (convert_mp4_to_apng Sample.no_tool ["a.mp4"] ["a.apng"] []) = Ret false
  /\ snd (convert_mp4_to_apng Cases.garbled ["a.mp4"] ["a.apng"] [Run version_cmd])
     = Ret false.
Proof.
  split; [|split].
  - apply (proj1 (convert_verdict Sample.world ["a.mp4"] ["a.apng"] [])).
    eexists. split; reflexivity.
  - apply (proj1 (proj2 (convert_verdict Sample.no_tool
                           ["a.mp4"] ["a.apng"] []))).
    intros (r & Hr & _). discriminate Hr.
  - eapply (proj2 (proj2 (convert_verdict Cases.garbled
                            ["a.mp4"] ["a.apng"] [Run version_cmd]))).
    reflexivity.
Defined.

(** ** What the handlers are given *)

Lemma records_of_app (h : level) (t u : trace) :
  records_of h (t ++ u) = records_of h t ++ records_of h u.
Proof. unfold records_of. apply flat_map_app. Qed.

(** X5.  What the console handler is given of one conversion.  When
    [subprocess.run] comes back with status 0: the start and the success,
    and nothing of what the tool printed, which is given to the file handler
    only.  When the child ends with another status: the start, the status,
    and what the tool wrote to stderr.  When [subprocess.run] raises
    anything (as it does, after a child that exited with 0, on output it
    cannot decode): the start, then error records only. *)
Theorem console_of_conversion (w : World) (i o : path) (t : trace) :
  (forall r,
      tool w (List.length (runs t)) (command i o) = Ran r ->
      returncode r = 0%Z ->
      sent_to_console (fst (convert_mp4_to_apng w i o t))
      = sent_to_console t
          ++ [ (INFO, "Starting conversion for: " ++ Path.name i);
               (INFO, "Successfully converted '" ++ Path.name i
                        ++ "' to '" ++ Path.name o ++ "'") ]%string
      /\ In (DEBUG, ("ffmpeg stdout:" ++ Str.nl ++ stdout r)%string)
            (sent_to_log_file (fst (convert_mp4_to_apng w i o t)))
      /\ In (DEBUG, ("ffmpeg stderr:" ++ Str.nl ++ stderr r)%string)
            (sent_to_log_file (fst (convert_mp4_to_apng w i o t))))
  /\ (forall r,
        tool w (List.length (runs t)) (command i o) = Ran r ->
        returncode r <> 0%Z ->
        sent_to_console (fst (convert_mp4_to_apng w i o t))
        = sent_to_console t
            ++ [ (INFO, "Starting conversion for: " ++ Path.name i);
                 (ERROR, "Error converting " ++ Path.name i
                           ++ ". ffmpeg exited with status "
                           ++ Str.of_Z (returncode r) ++ ".");
                 (ERROR, "ffmpeg stderr:" ++ Str.nl ++ stderr r) ]%string)
  /\ (forall e,
        tool w (List.length (runs t)) (command i o) = Failed e ->
        exists errs,
          sent_to_console (fst (convert_mp4_to_apng w i o t))
          = sent_to_console t
              ++ (INFO, "Starting conversion for: " ++ Path.name i)%string :: errs
          /\ errs <> []
          /\ Forall (fun r => fst r = ERROR) errs).
Proof.
  unfold convert_mp4_to_apng, subprocess_run. run_monad.
  rewrite !runs_app. cbn [runs flat_map]. rewrite !List.app_nil_r.
  split; [|split].
  - intros r Htool Hz. rewrite Htool, Hz. cbn [Z.eqb fst].
    unfold sent_to_console, sent_to_log_file.
    rewrite !records_of_app. cbn [records_of flat_map].
    split; [|split].
    + cbn. now rewrite <- !app_assoc.
    + rewrite !in_app_iff. cbn. tauto.
    + rewrite !in_app_iff. cbn. tauto.
  - intros r Htool Hz. rewrite Htool. apply Z.eqb_neq in Hz. rewrite Hz.
    cbn [fst]. unfold sent_to_console.
    rewrite !records_of_app. cbn. now rewrite <- !app_assoc.
  - intros e Htool. rewrite Htool. unfold sent_to_console.
    destruct e; cbn [fst]; rewrite !records_of_app; cbn;
      rewrite <- !app_assoc; cbn [List.app];
      eexists; (split; [reflexivity|]);
      (split; [discriminate | repeat constructor]).
Qed.

Lemma console_of_conversion_witness :
  sent_to_console
    (fst (convert_mp4_to_apng Sample.world ["mp4"; "a.mp4"] ["export"; "a.apng"] []))
  = [ (INFO, "Starting conversion for: a.mp4");
      (INFO, "Successfully converted 'a.mp4' to 'a.apng'") ]
  /\ exists errs,
       sent_to_console
         (fst (convert_mp4_to_apng Cases.garbled ["mp4"; "a.mp4"] ["export"; "a.apng"]
                 [Run version_cmd]))
       = [] ++ (INFO, "Starting conversion for: a.mp4") :: errs
       /\ errs <> []
       /\ Forall (fun r => fst r = ERROR) errs.
Proof.
  split.
  - refine (proj1 (proj1 (console_of_conversion Sample.world
                            ["mp4"; "a.mp4"] ["export"; "a.apng"] [])
                     {| returncode := 0; stdout := "out"; stderr := "frames" |}
                     _ _)).
    + reflexivity.
    + reflexivity.
  - refine (proj2 (proj2 (console_of_conversion Cases.garbled
                            ["mp4"; "a.mp4"] ["export"; "a.apng"]
                            [Run version_cmd]))
              (OtherException "'utf-8' codec can't decode byte 0xff in position 0: invalid start byte")
              _).
    reflexivity.
Defined.

(** ** The directories *)

Lemma dirs_differ (w : World) : source_dir w <> export_dir w.
Proof.
  unfold source_dir, export_dir, Path.div. intros H.
  apply app_inj_tail in H. destruct H as [_ H]. discriminate H.
Qed.

Lemma loop_makes_nothing (evs : trace) :
  Forall loop_event evs -> filter is_mkdir evs = [].
Proof.
  induction 1 as [|e evs He _ IH]; [reflexivity|].
  destruct e; cbn in *; try assumption; contradiction.
Qed.

Lemma filter_mkdir_app (t u : trace) :
  filter is_mkdir (t ++ u) = filter is_mkdir t ++ filter is_mkdir u.
Proof. apply filter_app. Qed.

(** X6.  Without a source directory the run ends with status 1 after the
    check of the tool: it does not look at the export directory, makes no
    directory, lists nothing and converts nothing. *)
Theorem source_missing_stops (w : World) :
  log_open w = None -> tool_available w -> ~ source_present w ->
  snd (run w) = 1%Z
  /\ runs (fst (run w)) = [version_cmd]
  /\ ~ In (IsDir (export_dir w)) (fst (run w))
  /\ (forall p, ~ In (Mkdir p) (fst (run w)))
  /\ (forall p pat, ~ In (Glob p pat) (fst (run w)))
  /\ last (fst (run w)) (Exit 0) = Exit 1.
Proof.
  intros Hlog Ha Hs.
  destruct (main_source_missing w _ (runs_opened w) Ha Hs) as (m & Hm).
  rewrite (run_main w Hlog), Hm. cbn [fst snd exit_status].
  pose proof (dirs_differ w) as Hd.
  unfold opened, resolving, checking. cbn [List.app].
  split; [reflexivity|]. split; [reflexivity|].
  split; [|split; [|split]].
  - cbn. intuition (try discriminate). congruence.
  - intros p. cbn. intuition discriminate.
  - intros p pat. cbn. intuition discriminate.
  - reflexivity.
Qed.

Lemma source_missing_stops_witness :
  snd (run Sample.no_source) = 1%Z
  /\ runs (fst (run Sample.no_source)) = [version_cmd].
Proof.
  assert (Hlog : log_open Sample.no_source = None) by reflexivity.
  assert (Ha : tool_available Sample.no_source)
    by (eexists; split; reflexivity).
  assert (Hs : ~ source_present Sample.no_source)
    by (unfold source_present; vm_compute; discriminate).
  split.
  - apply (proj1 (source_missing_stops Sample.no_source Hlog Ha Hs)).
  - apply (proj1 (proj2 (source_missing_stops Sample.no_source Hlog Ha Hs))).
Defined.

(** X7.  In a run that gets to discovery, the export directory is made
    exactly when it was not there, once, by the only [mkdir] of the run;
    and that happens before the source directory is listed, so before any
    conversion. *)
Theorem export_dir_made_when_absent (w : World) :
  reaches_discovery w ->
  filter is_mkdir (fst (run w))
  = (if Fs.is_dir (root w) (export_dir w) then [] else [Mkdir (export_dir w)])
  /\ exists pre post,
       fst (run w) = pre ++ Glob (source_dir w) "*.mp4" :: post
       /\ runs pre = [version_cmd]
       /\ filter is_mkdir post = []
       /\ filter is_glob pre = [].
Proof.
  intros Hr.
  assert (Hshape : exists post,
    fst (run w) = (opened w ++ preparing w) ++ post
    /\ filter is_mkdir post = []).
  { destruct (discovered w) as [|p ps] eqn:Hd.
    - rewrite (run_no_files w Hr Hd). cbn [fst].
      exists (nothing_to_do w). now rewrite app_assoc.
    - destruct (run_full w Hr) as (evs & s & f & Hrun & _ & _ & Hev);
        [congruence|].
      rewrite Hrun. cbn [fst]. eexists. rewrite app_assoc.
      split; [reflexivity|].
      rewrite !filter_mkdir_app, (loop_makes_nothing evs Hev). reflexivity. }
  destruct Hshape as (post & Ht & Hpost). rewrite Ht.
  unfold preparing.
  destruct (Fs.is_dir (root w) (export_dir w)).
  - split.
    + rewrite !filter_mkdir_app, Hpost. reflexivity.
    + exists (opened w ++ resolving w ++ [IsDir (export_dir w)]), post.
      rewrite <- !app_assoc. now repeat split.
  - split.
    + rewrite !filter_mkdir_app, Hpost. reflexivity.
    + exists (opened w ++ resolving w ++ [IsDir (export_dir w)] ++ creating w), post.
      rewrite <- !app_assoc. now repeat split.
Qed.

Lemma export_dir_made_when_absent_witness :
  filter is_mkdir (fst (run Sample.world)) = [Mkdir ["opt"; "app"; "export"]]
  /\ filter is_mkdir (fst (run Cases.ready)) = [].
Proof.
  split.
  - refine (proj1 (export_dir_made_when_absent Sample.world _)).
    repeat split; first [reflexivity | right; reflexivity
                        | eexists; split; reflexivity].
  - refine (proj1 (export_dir_made_when_absent Cases.ready _)).
    repeat split; first [reflexivity | left; reflexivity
                        | eexists; split; reflexivity].
Defined.

(** X8.  When the export directory is missing and [mkdir] raises an
    [OSError], the run ends with status 1 after that one attempt: the source
    directory is not listed and nothing is converted. *)
Theorem export_failure_stops (w : World) :
  log_open w = None -> tool_available w -> source_present w ->
  export_fails w ->
  snd (run w) = 1%Z
  /\ runs (fst (run w)) = [version_cmd]
  /\ filter is_mkdir (fst (run w)) = [Mkdir (export_dir w)]
  /\ (forall p pat, ~ In (Glob p pat) (fst (run w)))
  /\ last (fst (run w)) (Exit 0) = Exit 1.
Proof.
  intros Hlog Ha Hs He.
  destruct (main_export_fails w _ (runs_opened w) Ha Hs He) as (m & Hm).
  rewrite (run_main w Hlog), Hm. cbn [fst snd exit_status].
  unfold opened, resolving, checking, creating. cbn [List.app].
  split; [reflexivity|]. split; [reflexivity|]. split; [reflexivity|].
  split; [|reflexivity].
  intros p pat. cbn. intuition discriminate.
Qed.

Lemma export_failure_stops_witness :
  snd (run Cases.read_only) = 1%Z
  /\ runs (fst (run Cases.read_only)) = [version_cmd].
Proof.
  assert (Hlog : log_open Cases.read_only = None) by reflexivity.
  assert (Ha : tool_available Cases.read_only)
    by (eexists; split; reflexivity).
  assert (Hs : source_present Cases.read_only) by reflexivity.
  assert (He : export_fails Cases.read_only).
  { split; [unfold export_present; vm_compute; discriminate|].
    eexists. reflexivity. }
  split.
  - apply (proj1 (export_failure_stops Cases.read_only Hlog Ha Hs He)).
  - apply (proj1 (proj2 (export_failure_stops Cases.read_only Hlog Ha Hs He))).
Defined.

(** ** The counters and the exit status *)

(** X9.  The summary tells what happened: in a run that ends with a
    summary, the success counter it reports is the number of discovered
    files for which [subprocess.run] came back with status 0, the files
    whose conversion answered [True] (the conversions being the processes
    1, 2, ... of the run, in the order of discovery); and the failure
    counter is the number of the others, among them a file whose child
    exited with 0 while [subprocess.run] raised. *)
Theorem summary_counts_outcomes (w : World) (pre : trace) (n s f : nat) (c : Z) :
  fst (run w) = pre ++ summary_records w n s f ++ [Exit c] ->
  s = successes w 1 (discovered w)
  /\ f = List.length (discovered w) - successes w 1 (discovered w)
  /\ s <= n.
Proof.
  intros H.
  assert (Hsum : summarized (fst (run w))).
  { rewrite H. apply summarized_app. right. left. reflexivity. }
  destruct (summarized_inv w Hsum) as [Hr Hd].
  destruct (run_counts w Hr Hd) as (pre' & Ht & _ & Hle).
  rewrite Ht in H. apply summary_unique in H.
  destruct H as (Hn & Hs & Hf & _). subst. now repeat split.
Qed.

Lemma summary_counts_outcomes_witness :
  (2 = successes Sample.world 1 (discovered Sample.world)
   /\ 1 = List.length (discovered Sample.world)
          - successes Sample.world 1 (discovered Sample.world)
   /\ 2 <= 3)
  /\ (0 = successes Cases.garbled 1 (discovered Cases.garbled)
      /\ 1 = List.length (discovered Cases.garbled)
             - successes Cases.garbled 1 (discovered Cases.garbled)
      /\ 0 <= 1).
Proof.
  split.
  - refine (summary_counts_outcomes Sample.world
              (firstn 36 (fst (run Sample.world))) 3 2 1 1%Z _).
    vm_compute. reflexivity.
  - refine (summary_counts_outcomes Cases.garbled
              (firstn 19 (fst (run Cases.garbled))) 1 0 1 1%Z _).
    vm_compute. reflexivity.
Defined.

(** The status of a run that gets to discovery. *)
Lemma status_of_discovery (w : World) :
  reaches_discovery w ->
  snd (run w)
  = (if Nat.eqb (successes w 1 (discovered w)) (List.length (discovered w))
     then 0 else 1)%Z.
Proof.
  intros Hr. destruct (discovered w) as [|p ps] eqn:Hd.
  - now rewrite (run_no_files w Hr Hd).
  - assert (Hne : discovered w <> []) by congruence.
    destruct (run_counts w Hr Hne) as (_ & _ & Hc & Hle).
    rewrite Hd in Hc, Hle. rewrite Hc.
    destruct (0 <? _)%nat eqn:E.
    + apply Nat.ltb_lt in E.
      destruct (Nat.eqb_spec (successes w 1 (p :: ps)) (List.length (p :: ps)));
        [lia | reflexivity].
    + apply Nat.ltb_ge in E.
      destruct (Nat.eqb_spec (successes w 1 (p :: ps)) (List.length (p :: ps)));
        [reflexivity | lia].
Qed.

(** X10.  The exit status is 0 or 1; and it is 0 exactly when the run got
    to discovery and every conversion succeeded (none being needed when no
    file was found). *)
Theorem exit_zero_iff (w : World) :
  (snd (run w) = 0%Z \/ snd (run w) = 1%Z)
  /\ (snd (run w) = 0%Z <->
      reaches_discovery w
      /\ successes w 1 (discovered w) = List.length (discovered w)).
Proof.
  destruct (run_cases w) as [Hr | [H1 _]].
  - rewrite (status_of_discovery w Hr).
    destruct (Nat.eqb_spec (successes w 1 (discovered w))
                           (List.length (discovered w))) as [E | E].
    + split; [now left|]. now split.
    + split; [now right|]. split; [discriminate|]. intros [_ E']. contradiction.
  - split; [now right|]. split.
    + rewrite H1. discriminate.
    + intros [Hr E]. rewrite (status_of_discovery w Hr), E, Nat.eqb_refl.
      reflexivity.
Qed.

Lemma exit_zero_iff_witness :
  snd (run Cases.ready) = 0%Z
  /\ (reaches_discovery Sample.empty
      /\ successes Sample.empty 1 (discovered Sample.empty)
         = List.length (discovered Sample.empty)).
Proof.
  split.
  - apply (proj2 (proj2 (exit_zero_iff Cases.ready))).
    split; [|reflexivity].
    repeat split; first [reflexivity | left; reflexivity
                        | eexists; split; reflexivity].
  - apply (proj1 (proj2 (exit_zero_iff Sample.empty))). reflexivity.
Defined.

(** ** The outputs *)

Lemma parent_div (d : path) (n : string) : Path.parent (d // n) = d.
Proof. unfold Path.parent, Path.div. apply removelast_last. Qed.

Lemma div_inj (d d' : path) (n n' : string) :
  d // n = d' // n' -> d = d' /\ n = n'.
Proof. unfold Path.div. apply app_inj_tail. Qed.

Lemma append_length (s u : string) :
  String.length (s ++ u) = String.length s + String.length u.
Proof. induction s as [|a s IH]; cbn; [reflexivity | now rewrite IH]. Qed.

Lemma append_cancel_r (u s s' : string) :
  (s ++ u)%string = (s' ++ u)%string -> s = s'.
Proof.
  revert s'. induction s as [|a s IH]; intros [|a' s'] H.
  - reflexivity.
  - apply (f_equal String.length) in H. cbn in H.
    rewrite append_length in H. lia.
  - apply (f_equal String.length) in H. cbn in H.
    rewrite append_length in H. lia.
  - cbn in H. injection H as -> H. f_equal. now apply IH.
Qed.

(** X11.  Every output goes straight into the export directory, under a
    name in [.apng]; so no conversion writes over a discovered input, which
    lies in the source directory. *)
Theorem outputs_spare_inputs (w : World) (p : path) :
  Path.parent (apng_file_path w p) = export_dir w
  /\ Path.name (apng_file_path w p) = (Path.stem p ++ ".apng")%string
  /\ (forall q, In q (discovered w) -> apng_file_path w p <> q)
  /\ (forall q, In q (discovered w) -> Path.parent q = source_dir w).
Proof.
  unfold apng_file_path. split; [apply parent_div|].
  split; [apply name_div|]. split.
  - intros q Hq H. destruct (discovered_shape w q Hq) as (s & ->).
    apply div_inj in H. destruct H as [H _].
    now apply (dirs_differ w).
  - intros q Hq. destruct (discovered_shape w q Hq) as (s & ->).
    apply parent_div.
Qed.

Lemma outputs_spare_inputs_witness :
  Path.parent (apng_file_path Sample.world ["opt"; "app"; "mp4"; "clip_a.mp4"])
  = ["opt"; "app"; "export"]
  /\ apng_file_path Sample.world ["opt"; "app"; "mp4"; "clip_a.mp4"]
     <> ["opt"; "app"; "mp4"; "clip_b.mp4"].
Proof.
  split.
  - exact (proj1 (outputs_spare_inputs Sample.world
                    ["opt"; "app"; "mp4"; "clip_a.mp4"])).
  - refine (proj1 (proj2 (proj2 (outputs_spare_inputs Sample.world
                                   ["opt"; "app"; "mp4"; "clip_a.mp4"])))
              ["opt"; "app"; "mp4"; "clip_b.mp4"] _).
    right. left. reflexivity.
Defined.

(** X12.  Two discovered files get two different outputs, unless one of
    them is the file named [.mp4]: its output [.mp4.apng] is also that of
    [.mp4.mp4], so with both in the source directory one conversion writes
    over the result of the other. *)
Theorem outputs_are_distinct (w : World) :
  (forall p q,
      In p (discovered w) -> In q (discovered w) ->
      Path.name p <> ".mp4"%string -> Path.name q <> ".mp4"%string ->
      apng_file_path w p = apng_file_path w q -> p = q)
  /\ apng_file_path w (source_dir w // ".mp4"%string)
     = apng_file_path w (source_dir w // ".mp4.mp4"%string)
  /\ source_dir w // ".mp4"%string <> source_dir w // ".mp4.mp4"%string.
Proof.
  split; [|split].
  - intros p q Hp Hq Hnp Hnq H.
    destruct (discovered_shape w p Hp) as (s & ->).
    destruct (discovered_shape w q Hq) as (s' & ->).
    rewrite name_div in Hnp, Hnq.
    unfold apng_file_path in H. rewrite !stem_mp4 in H.
    apply div_inj in H. destruct H as [_ H].
    destruct s as [|a s]; [now contradiction Hnp|].
    destruct s' as [|a' s']; [now contradiction Hnq|].
    apply append_cancel_r in H. now rewrite H.
  - pose proof (stem_mp4 (source_dir w) EmptyString) as H1.
    pose proof (stem_mp4 (source_dir w) ".mp4") as H2.
    cbn [append] in H1, H2.
    unfold apng_file_path. now rewrite H1, H2.
  - intros H. apply div_inj in H. destruct H as [_ H]. discriminate H.
Qed.

Lemma outputs_are_distinct_witness :
  discovered Cases.clash
  = [ ["opt"; "app"; "mp4"; ".mp4"]; ["opt"; "app"; "mp4"; ".mp4.mp4"] ]
  /\ apng_file_path Sample.world ["opt"; "app"; "mp4"; "clip_a.mp4"]
     <> apng_file_path Sample.world ["opt"; "app"; "mp4"; "clip_b.mp4"].
Proof.
  split; [reflexivity|].
  intros H.
  apply (proj1 (outputs_are_distinct Sample.world)) in H.
  - discriminate H.
  - left. reflexivity.
  - right. left. reflexivity.
  - vm_compute. discriminate.
  - vm_compute. discriminate.
Defined.

(** ** Where the effects land *)

Section Emits.

Variable P : event -> Prop.

Lemma emits_ret {A} (a : A) : emits P (ret a).
Proof. intros t. exists []. cbn. now rewrite List.app_nil_r. Qed.

Lemma emits_raise {A} (e : exn) : emits P (@raise A e).
Proof. intros t. exists []. cbn. now rewrite List.app_nil_r. Qed.

Lemma emits_emit (e : event) : P e -> emits P (emit e).
Proof. intros H t. exists [e]. split; [reflexivity | now constructor]. Qed.

Lemma emits_sys_exit {A} (c : Z) : P (Exit c) -> emits P (@sys_exit A c).
Proof. intros H t. exists [Exit c]. split; [reflexivity | now constructor]. Qed.

Lemma emits_bind {A B} (m : M A) (k : A -> M B) :
  emits P m -> (forall a, emits P (k a)) -> emits P (bind m k).
Proof.
  intros Hm Hk t. destruct (Hm t) as (evs & He & Hp). unfold bind.
  destruct (m t) as [t' [a|c|e]]; cbn [fst] in *; subst t'.
  - destruct (Hk a (t ++ evs)) as (evs' & He' & Hp'). exists (evs ++ evs').
    rewrite He', app_assoc. split; [reflexivity | now apply Forall_app].
  - now exists evs.
  - now exists evs.
Qed.

Lemma emits_try_except {A} (m : M A) (h : exn -> option (M A)) :
  emits P m -> (forall e k, h e = Some k -> emits P k) ->
  emits P (try_except m h).
Proof.
  intros Hm Hh t. destruct (Hm t) as (evs & He & Hp). unfold try_except.
  destruct (m t) as [t' [a|c|e]]; cbn [fst] in *; subst t'.
  - now exists evs.
  - now exists evs.
  - destruct (h e) as [k|] eqn:Hk; [|now exists evs].
    destruct (Hh e k Hk (t ++ evs)) as (evs' & He' & Hp'). exists (evs ++ evs').
    rewrite He', app_assoc. split; [reflexivity | now apply Forall_app].
Qed.

Lemma emits_when (b : bool) (m : M unit) : emits P m -> emits P (when b m).
Proof. intros H. destruct b; [assumption | apply emits_ret]. Qed.

Lemma emits_for_each {A S} (body : A -> S -> M S) (l : list A) :
  (forall x s, emits P (body x s)) -> forall s, emits P (for_each l body s).
Proof.
  intros Hb. induction l as [|x l IH]; intros s; cbn [for_each].
  - apply emits_ret.
  - apply emits_bind; [apply Hb | assumption].
Qed.

Lemma emits_subprocess_run (w : World) (argv : list string) :
  P (Run argv) -> emits P (subprocess_run w argv).
Proof.
  intros H t. exists [Run argv]. unfold subprocess_run.
  split; [|now constructor].
  destruct (tool w _ argv) as [r|e]; [destruct (returncode r =? 0)%Z|];
    reflexivity.
Qed.

End Emits.

Ltac emits_step :=
  first [ apply emits_bind; [|intros ?]
        | apply emits_try_except; [|intros ? ? ?]
        | apply emits_for_each; intros ? ?
        | apply emits_when
        | apply emits_ret
        | apply emits_raise
        | apply emits_emit
        | apply emits_sys_exit
        | apply emits_subprocess_run ].

Ltac confined_side :=
  match goal with
  | |- confined _ (Log _ _) => exact I
  | |- confined _ (Run _) =>
      first [left; reflexivity | right; eexists; eexists; reflexivity]
  | |- confined _ (IsDir _) => first [left; reflexivity | right; reflexivity]
  | |- confined _ (Mkdir _) => reflexivity
  | |- confined _ (Glob _ _) => split; reflexivity
  | |- confined _ (Exit _) => first [left; reflexivity | right; reflexivity]
  | |- confined _ (OpenLog _) => reflexivity
  end.

Lemma confined_check_ffmpeg (w : World) : emits (confined w) (check_ffmpeg w).
Proof.
  unfold check_ffmpeg, logger_info, logger_error.
  repeat first [emits_step | confined_side].
  match goal with H : _ = Some _ |- _ => destruct e; inversion H; subst end;
    repeat first [emits_step | confined_side].
Qed.

Lemma confined_convert (w : World) (i o : path) :
  emits (confined w) (convert_mp4_to_apng w i o).
Proof.
  unfold convert_mp4_to_apng, logger_info, logger_debug, logger_error.
  repeat first [emits_step | confined_side].
  match goal with H : _ = Some _ |- _ => destruct e; inversion H; subst end;
    repeat first [emits_step | confined_side].
Qed.

Lemma confined_main (w : World) : emits (confined w) (main w).
Proof.
  unfold main, is_dir, glob, path_mkdir, loop_body,
    logger_info, logger_error, logger_warning.
  repeat first
    [ apply confined_check_ffmpeg
    | apply confined_convert
    | emits_step
    | confined_side
    | match goal with
      | |- emits _ (match ?x with _ => _ end) => destruct x
      | H : (if ?b then _ else _) = Some _ |- _ =>
          destruct b; inversion H; subst
      end ].
Qed.

(** X13.  The effects of a run stay where they belong.  The only file it
    opens is the log file in the current directory; the only directories it
    tests are the source and the export directory; the only directory it
    makes is the export directory; the only listing is that of the source
    directory, for [*.mp4]; every process it starts is the version
    invocation or a conversion command; and it exits with 0 or 1 only. *)
Theorem effects_are_confined (w : World) :
  Forall (confined w) (fst (run w)).
Proof.
  assert (Hs : emits (confined w) (script w)).
  { unfold script, module_init.
    repeat first [ apply confined_main
                 | emits_step
                 | confined_side
                 | match goal with
                   | |- emits _ (match ?x with _ => _ end) => destruct x
                   end ]. }
  destruct (Hs []) as (evs & He & Hp).
  unfold run. destruct (script w []) as [t o]. cbn [fst] in *. now subst t.
Qed.

(** ** Discovery without repeats *)

(** X15.  Discovery finds each entry once: when the names of the entries of
    the source directory are all different, as they are in a directory, so
    are the paths found, and there are no more of them than entries. *)
Theorem discovered_without_repeats (w : World) (es : list (string * node)) :
  Fs.lookup (root w) (source_dir w) = Some (Dir es) ->
  NoDup (map fst es) ->
  NoDup (discovered w) /\ List.length (discovered w) <= List.length es.
Proof.
  intros Hes Hnd. unfold discovered. rewrite (glob_entries _ _ _ _ Hes).
  split.
  - assert (Hf : NoDup (map fst (filter (fun e : string * node =>
                                           Str.fnmatch "*.mp4" (fst e)) es))).
    { clear Hes. induction es as [|[nm nd] es IH]; [constructor|].
      cbn [map fst] in Hnd. inversion Hnd as [|x l Hnotin Hnd']; subst.
      cbn [filter fst]. destruct (Str.fnmatch "*.mp4" nm); [|now apply IH].
      cbn [map fst]. constructor; [|now apply IH].
      intros Hin. apply Hnotin. apply in_map_iff in Hin.
      destruct Hin as (e & He & Hin). apply filter_In in Hin.
      apply in_map_iff. exists e. now split. }
    revert Hf. generalize (filter (fun e : string * node =>
                                     Str.fnmatch "*.mp4" (fst e)) es).
    intros l Hl. induction l as [|e l IH]; [constructor|].
    cbn [map] in *. inversion Hl as [|x l' Hnotin Hl']; subst.
    constructor; [|now apply IH].
    intros Hin. apply Hnotin. apply in_map_iff in Hin.
    destruct Hin as (e' & He' & Hin). apply div_inj in He'.
    destruct He' as [_ He']. apply in_map_iff. exists e'. now split.
  - rewrite length_map. apply filter_length_le.
Qed.

Lemma discovered_without_repeats_witness :
  NoDup (discovered Sample.world) /\ List.length (discovered Sample.world) <= 5.
Proof.
  refine (discovered_without_repeats Sample.world Sample.entries _ _).
  - reflexivity.
  - repeat constructor; cbn; intuition discriminate.
Defined.
